(** * Fraud scoring pipeline of Panel.py

    A shallow embedding of [preprocess_input] and [predict_fraud]
    (src/Panel.py) together with the pieces of Python and SQLite they
    rest on: dynamically typed values, the [float] and [int] coercions,
    binary64 arithmetic, the built-in [min] and [max], the two SQL
    statements issued against the [customer_data] and [predictions]
    tables, and exceptions. *)

From Stdlib Require Import ZArith List String Ascii Bool Lia OrderedTypeEx.
From Stdlib Require Import Floats.
Import ListNotations.

Set Warnings "-inexact-float".

Local Open Scope string_scope.
Local Open Scope list_scope.
Local Open Scope Z_scope.

(** ** Python values and exceptions *)

(** The exceptions that can leave the modelled code. [OperationalError]
    is sqlite3's error for a statement that cannot be executed (database
    locked, disk full, read-only file). *)
Inductive exn : Type :=
  | TypeError
  | ValueError
  | OverflowError
  | KeyError
  | OperationalError.

(** A computation that either returns or raises. *)
Inductive result (A : Type) : Type :=
  | Ok (a : A)
  | Raise (e : exn).

Arguments Ok {A} a.
Arguments Raise {A} e.

Definition bind {A B : Type} (c : result A) (k : A -> result B) : result B :=
  match c with
  | Ok a => k a
  | Raise e => Raise e
  end.

Notation "x <- c ;; k" := (bind c (fun x => k))
  (at level 61, c at next level, right associativity).

(** [try: c except: d] is Python's [try ... except:] with a bare handler
    that assigns a default. *)
Definition try_except {A : Type} (c : result A) (d : A) : A :=
  match c with
  | Ok a => a
  | Raise _ => d
  end.

(** The objects that reach [predict_fraud] as [claim_amount] and that the
    sqlite3 driver hands back for a cell: [None] (SQL NULL), [int], [float]
    and [str]. *)
Inductive pyval : Type :=
  | PyNone
  | PyInt (z : Z)
  | PyFloat (f : float)
  | PyStr (s : string).

(** A Python number: the probability is a [float] while it is being
    adjusted, and the [int] literals 0 or 1 when the clamp replaces it. *)
Inductive number : Type :=
  | Int (z : Z)
  | Float (f : float).

(** ** Binary64 helpers *)

(** [float(n)] for an [int]: the nearest binary64 value, ties to even. *)
Definition float_of_Z (z : Z) : float :=
  SF2Prim (binary_normalize prec emax z 0 false).

(** Classification of a binary64 value. *)
Definition is_infinity (f : float) : bool :=
  match Prim2SF f with
  | S754_infinity _ => true
  | _ => false
  end.

Definition is_nan (x : float) : bool :=
  match Prim2SF x with
  | S754_nan => true
  | _ => false
  end.

(** Whether a float is a positive finite number. *)
Definition positive_finite (d : float) : bool :=
  match Prim2SF d with
  | S754_finite false _ _ => true
  | _ => false
  end.

(** Truncation toward zero of a finite binary64 value. *)
Definition trunc_SF (x : spec_float) : option Z :=
  match x with
  | S754_zero _ => Some 0
  | S754_finite s m e =>
      Some (cond_Zopp s (if 0 <=? e then Z.shiftl (Zpos m) e
                         else Z.shiftr (Zpos m) (- e)))
  | S754_infinity _ | S754_nan => None
  end.

Definition as_float (n : number) : float :=
  match n with
  | Int z => float_of_Z z
  | Float f => f
  end.

(** Comparison of two numbers. Python compares an [int] with a [float]
    exactly; the only [int]s compared with a [float] here are the
    literals 0, 1 and 300000, which [float_of_Z] represents exactly. *)
Definition num_lt (a b : number) : bool :=
  match a, b with
  | Int x, Int y => x <? y
  | _, _ => PrimFloat.ltb (as_float a) (as_float b)
  end.

Definition num_le (a b : number) : bool :=
  match a, b with
  | Int x, Int y => x <=? y
  | _, _ => PrimFloat.leb (as_float a) (as_float b)
  end.

Definition num_gt (a b : number) : bool := num_lt b a.

(** The built-ins [min(a, b)] and [max(a, b)]: the first argument is kept
    unless the second compares strictly below (above) it. *)
Definition py_min (a b : number) : number := if num_lt b a then b else a.

Definition py_max (a b : number) : number := if num_gt b a then b else a.

(** *** Finite binary64 values, for the rounding lemmas *)

(** Number of binary digits of a mantissa. *)
Definition digits (m : positive) : Z := Zpos (digits2_pos m).

(** A finite float is canonical when its exponent is the one the format
    prescribes for its magnitude. *)
Definition canonical (m : positive) (e : Z) : Prop :=
  fexp prec emax (digits m + e) = e.

(** The value of a finite float, scaled by 2^1074 so that it is an integer. *)
Definition scaled (m : positive) (e : Z) : Z := Zpos m * 2 ^ (e + 1074).

(** After [n] right shifts of an exact record: the quotient, and no round or
    sticky bit when nothing was lost. *)
Definition shifted (m0 n : Z) (mrs : shr_record) : Prop :=
  shr_m mrs = m0 / 2 ^ n /\
  (m0 mod 2 ^ n = 0 -> shr_r mrs = false /\ shr_s mrs = false).

(** [m2 * 2^e2] is one of the two canonical neighbours of [mz * 2^ez]. *)
Definition rounds_to (mz : positive) (ez : Z) (m2 : positive) (e2 : Z) : Prop :=
  canonical m2 e2 /\
  exists m1 : Z,
    (m1 = Zpos mz / 2 ^ (fexp prec emax (digits mz + ez) - ez) \/
     (m1 = Zpos mz / 2 ^ (fexp prec emax (digits mz + ez) - ez) + 1 /\
      Zpos mz mod 2 ^ (fexp prec emax (digits mz + ez) - ez) <> 0)) /\
    scaled m2 e2 = m1 * 2 ^ (fexp prec emax (digits mz + ez) + 1074).

(** ** Strings *)

(** [str.lower] on the ASCII letters. The strings are the UTF-8 bytes of
    the Python strings; lowering a non-ASCII character never yields a
    letter of "cancer", "heart disease" or "private", so the three
    membership tests below see exactly what Python sees. *)
Definition lower_ascii (c : ascii) : ascii :=
  let n := N_of_ascii c in
  if ((65 <=? n) && (n <=? 90))%N then ascii_of_N (n + 32) else c.

Fixpoint lower (s : string) : string :=
  match s with
  | EmptyString => EmptyString
  | String c s' => String (lower_ascii c) (lower s')
  end.

(** [x in l] for a list of strings. *)
Definition str_in (x : string) (l : list string) : bool :=
  existsb (String.eqb x) l.

(** ** The fitted artifacts *)

(** A fitted [LabelEncoder]: [classes_] holds the distinct labels seen
    by [fit], sorted; [transform] maps a label to its position and raises
    [ValueError] on a label that is not among them. *)
Record LabelEncoder : Type := { classes_ : list string }.

Fixpoint position (y : string) (l : list string) (i : Z) : option Z :=
  match l with
  | [] => None
  | c :: l' => if String.eqb y c then Some i else position y l' (i + 1)
  end.

Definition transform (le : LabelEncoder) (y : string) : result Z :=
  match position y (classes_ le) 0 with
  | Some i => Ok i
  | None => Raise ValueError
  end.

(** [d[k]] on a dict with string keys. *)
Fixpoint getitem {V : Type} (d : list (string * V)) (k : string) : result V :=
  match d with
  | [] => Raise KeyError
  | (k', v) :: d' => if String.eqb k k' then Ok v else getitem d' k
  end.

(** The one-row frame built by [preprocess_input], column by column. *)
Record Features : Type := {
  ClaimAmount : float;
  Age : Z;
  Diagnosis : Z;
  HospitalType : Z;
  PreviousClaims : Z
}.

(** ** The database *)

Record customer_row : Type := {
  cd_user_id : Z;
  cd_customer_id : string;
  cd_date : string;
  cd_age : pyval;
  cd_name : string;
  cd_diagnosis : string;
  cd_hospital_type : string;
  cd_previous_claims : pyval;
  cd_claim_amount : pyval
}.

Record prediction_row : Type := {
  pr_user_id : Z;
  pr_customer_id : string;
  pr_name : string;
  pr_claim_amount : pyval;
  pr_age : pyval;
  pr_diagnosis : string;
  pr_hospital_type : string;
  pr_previous_claims : pyval;
  pr_prediction : string;
  pr_probability : number
}.

(** The two tables [predict_fraud] touches, in insertion order, and
    whether the connection currently accepts writes. The [users] table is
    neither read nor written by the scoring code; the [id] and [timestamp]
    columns are filled in by SQLite and are not part of a row here. *)
Record database : Type := {
  customer_data : list customer_row;
  predictions : list prediction_row;
  writable : bool
}.

(** [WHERE user_id=? AND customer_id=? AND name=?] *)
Definition matches (user_id : Z) (customer_id name : string)
    (r : customer_row) : bool :=
  (cd_user_id r =? user_id)
  && String.eqb (cd_customer_id r) customer_id
  && String.eqb (cd_name r) name.

(** [ORDER BY date DESC LIMIT 1]: a row whose [date] text is greatest
    (byte order); among equal dates the earliest inserted one. *)
Fixpoint latest (rows : list customer_row) : option customer_row :=
  match rows with
  | [] => None
  | r :: rows' =>
      match latest rows' with
      | None => Some r
      | Some r' => if String.ltb (cd_date r) (cd_date r') then Some r' else Some r
      end
  end.

(** The [SELECT age, previous_claims ...] followed by [fetchone()]. *)
Definition fetch_profile (db : database) (user_id : Z)
    (customer_id name : string) : option (pyval * pyval) :=
  match latest (filter (matches user_id customer_id name) (customer_data db)) with
  | None => None
  | Some r => Some (cd_age r, cd_previous_claims r)
  end.

(** A Python value can be bound to a statement parameter unless it is an
    [int] outside the 64-bit range. *)
Definition bindable (v : pyval) : bool :=
  match v with
  | PyInt z => (- 2 ^ 63 <=? z) && (z <? 2 ^ 63)
  | _ => true
  end.

(** [INSERT INTO predictions (...) VALUES (...)] and [conn.commit()]. *)
Definition insert_prediction (db : database) (row : prediction_row)
    : result database :=
  if negb (bindable (pr_claim_amount row) && bindable (pr_age row)
           && bindable (pr_previous_claims row))
  then Raise OverflowError
  else if writable db
  then Ok {| customer_data := customer_data db;
             predictions := predictions db ++ [row];
             writable := writable db |}
  else Raise OperationalError.

(** ** Business rules *)

Definition high_amount_threshold : Z := 300000.
Definition high_amount_adjustment : float := 0.10%float.
Definition frequent_claims_threshold : Z := 5.
Definition frequent_claims_adjustment : float := 0.15%float.
Definition suspicious_diagnosis_list : list string := ["cancer"; "heart disease"].
Definition suspicious_diagnosis_adjustment : float := 0.20%float.
Definition private_hospital_adjustment : float := 0.10%float.

(** What a call of [predict_fraud] gives its caller. *)
Inductive outcome : Type :=
  | Returned (result : string) (probability : number)
  | Raised (e : exn).

(** ** Sample artifacts and stores

    Concrete instances on which the statements below are exercised. *)

Fixpoint digits_to_Z (s : string) (acc : Z) : option Z :=
  match s with
  | EmptyString => Some acc
  | String c s' =>
      let n := Z.of_N (N_of_ascii c) in
      if (48 <=? n) && (n <=? 57) then digits_to_Z s' (10 * acc + (n - 48))
      else None
  end.

(** [int(s)] and [float(s)] restricted to non-empty strings of decimal
    digits, on which they agree with Python's parsers. *)
Definition demo_str_to_int (s : string) : option Z :=
  match s with
  | EmptyString => None
  | _ => digits_to_Z s 0
  end.

Definition demo_str_to_float (s : string) : option float :=
  option_map float_of_Z (demo_str_to_int s).

Definition demo_encoders : list (string * LabelEncoder) :=
  [ ("Diagnosis", {| classes_ := ["Cancer"; "Diabetes"; "Flu"] |});
    ("HospitalType", {| classes_ := ["Government"; "Private"] |}) ].

Definition model_const (p : float) : Features -> option float :=
  fun _ => Some p.

Definition model_failing : Features -> option float :=
  fun _ => None.

Definition alice_2023 : customer_row :=
  {| cd_user_id := 1; cd_customer_id := "C001"; cd_date := "2023-11-02";
     cd_age := PyInt 44; cd_name := "Alice"; cd_diagnosis := "Flu";
     cd_hospital_type := "Government"; cd_previous_claims := PyInt 2;
     cd_claim_amount := PyFloat 5000%float |}.

Definition alice_2024 : customer_row :=
  {| cd_user_id := 1; cd_customer_id := "C001"; cd_date := "2024-03-17";
     cd_age := PyInt 45; cd_name := "Alice"; cd_diagnosis := "Cancer";
     cd_hospital_type := "Private"; cd_previous_claims := PyInt 6;
     cd_claim_amount := PyFloat 120000%float |}.

Definition bob_null : customer_row :=
  {| cd_user_id := 1; cd_customer_id := "C002"; cd_date := "2024-01-09";
     cd_age := PyInt 30; cd_name := "Bob"; cd_diagnosis := "Flu";
     cd_hospital_type := "Clinic"; cd_previous_claims := PyNone;
     cd_claim_amount := PyFloat 800%float |}.

Definition demo_db : database :=
  {| customer_data := [alice_2023; alice_2024; bob_null];
     predictions := [];
     writable := true |}.


(** ** The rest of the application: accounts, panes and pages *)

(** A row of the [users] table. *)
Record user_row : Type := {
  us_id : Z;
  us_username : string;
  us_password : string
}.

(** What a Markdown pane shows. Text that the code writes out is kept as
    it is; three kinds of text depend on formatting this development does
    not model and are kept by their parts: the message of a caught
    exception ([f"### Error: {str(e)}"]), the missing columns of an upload
    (joined in the iteration order of a Python set), and the prediction
    results with the probability formatted as a percentage. *)
Inductive text : Type :=
  | Markdown (s : string)
  | ErrorText
  | MissingColumns (missing : list string)
  | PredictionResults (status : string) (probability : number).

(** A pane after a handler has set its [object] and the colour of its
    [style]. *)
Record pane : Type := {
  object : text;
  color : string
}.

(** What [main_area] holds. *)
Inductive page : Type :=
  | LoginPage
  | SignupPage
  | DashboardPage.

(** [len(s)]: the number of code points of a string given by its UTF-8
    bytes, that is the number of bytes that do not continue a character. *)
Definition is_continuation (c : ascii) : bool :=
  let n := N_of_ascii c in ((128 <=? n) && (n <? 192))%N.

Fixpoint py_len (s : string) : Z :=
  match s with
  | EmptyString => 0
  | String c s' => (if is_continuation c then 0 else 1) + py_len s'
  end.

(** [not s] for a string. *)
Definition is_empty (s : string) : bool := String.eqb s "".

(** Sample instances of [str.strip] (spaces only) and of the hash (a tag
    in front of the password; not SHA-256), and a sample [users] table. *)
Fixpoint lstrip_spaces (s : string) : string :=
  match s with
  | String " " s' => lstrip_spaces s'
  | _ => s
  end.

Definition reverse_string (s : string) : string :=
  string_of_list_ascii (rev (list_ascii_of_string s)).

Definition demo_strip (s : string) : string :=
  reverse_string (lstrip_spaces (reverse_string (lstrip_spaces s))).

Definition demo_hash (s : string) : string := String.append "hash:" s.

Definition demo_users : list user_row :=
  [ {| us_id := 1; us_username := "ana"; us_password := "hash:correct horse" |};
    {| us_id := 2; us_username := "raj"; us_password := "hash:battery staple" |} ].

(** The [users] table after "kim" has signed up. *)
Definition demo_users_kim : list user_row :=
  demo_users ++ [ {| us_id := 3; us_username := "kim";
                     us_password := "hash:hunter2hunter2" |} ].

Definition signup_ok : pane :=
  {| object := Markdown "### Signup successful! Please login. ✅";
     color := "green" |}.

(** The sample store with a row that another user uploaded for the same
    customer identifier and name. *)
Definition alice_of_raj : customer_row :=
  {| cd_user_id := 2; cd_customer_id := "C001"; cd_date := "2025-01-01";
     cd_age := PyInt 70; cd_name := "Alice"; cd_diagnosis := "Flu";
     cd_hospital_type := "Clinic"; cd_previous_claims := PyInt 0;
     cd_claim_amount := PyFloat 10%float |}.

Definition demo_db_two_users : database :=
  {| customer_data := [alice_of_raj; alice_2023; alice_2024; bob_null];
     predictions := [];
     writable := true |}.

(** ** Uploaded sheets *)

(** What [process_excel] reads of the object [row[label]]: the results of
    the built-ins [str], [int] and [float] on it. *)
Record cell : Type := {
  cell_str : string;
  cell_int : result Z;
  cell_float : result float
}.

(** A column label of a sheet: text, or something else (a number, a
    date). *)
Inductive label : Type :=
  | Text (s : string)
  | NotText.

(** The frame [pd.read_excel] returns: the column labels, and the rows in
    the order of [df.iterrows()], a row being the map from a label, as
    renamed by the handler, to the cell under it. *)
Record frame : Type := {
  columns : list label;
  iterrows : list (string -> cell)
}.

(** [s.replace(old, new)] for two one-byte characters. *)
Fixpoint replace (old new : ascii) (s : string) : string :=
  match s with
  | EmptyString => EmptyString
  | String c s' =>
      String (if Ascii.eqb c old then new else c) (replace old new s')
  end.

(** [name in set(df.columns)], a label that is not text being [None]. *)
Definition has_column (cols : list (option string)) (name : string) : bool :=
  existsb (fun l => match l with
                    | Some s => String.eqb s name
                    | None => false
                    end) cols.

(** [INSERT INTO customer_data (...) VALUES (...)]. An [int] must fit 64
    bits to be bound; the user id was read from an [INTEGER] column and
    always does. No statement of the handler rolls back, so a row that
    was inserted stays visible to the queries that follow on the same
    connection, and is committed with the next commit. *)
Definition insert_customer (db : database) (row : customer_row)
    : result database :=
  if negb (bindable (cd_age row) && bindable (cd_previous_claims row)
           && bindable (cd_claim_amount row))
  then Raise OverflowError
  else if writable db
  then Ok {| customer_data := customer_data db ++ [row];
             predictions := predictions db;
             writable := writable db |}
  else Raise OperationalError.

(** The store after [stored] has been appended to [customer_data]. *)
Definition uploaded (db : database) (stored : list customer_row) : database :=
  {| customer_data := customer_data db ++ stored;
     predictions := predictions db;
     writable := writable db |}.

(** A [customer_data] row as [process_excel] writes it: age and previous
    claims are integers of 64 bits. *)
Definition integer_profile (r : customer_row) : bool :=
  match cd_age r, cd_previous_claims r with
  | PyInt a, PyInt pc => bindable (PyInt a) && bindable (PyInt pc)
  | _, _ => false
  end.

(** Sample sheets. A cell that holds a number, one that holds text, and a
    row given by its eight cells. *)
Definition number_cell (s : string) (z : Z) : cell :=
  {| cell_str := s; cell_int := Ok z; cell_float := Ok (float_of_Z z) |}.

Definition text_cell (s : string) : cell :=
  {| cell_str := s;
     cell_int := Raise ValueError;
     cell_float := Raise ValueError |}.

Definition sheet_row (customer_id date age name diagnosis hospital_type
    previous_claims claim_amount : cell) : string -> cell :=
  fun l =>
    if String.eqb l "customer_id" then customer_id
    else if String.eqb l "date" then date
    else if String.eqb l "age" then age
    else if String.eqb l "name" then name
    else if String.eqb l "diagnosis" then diagnosis
    else if String.eqb l "hospital_type" then hospital_type
    else if String.eqb l "previous_claims" then previous_claims
    else claim_amount.

Definition carol : string -> cell :=
  sheet_row (text_cell " C003") (text_cell "2024-05-01") (number_cell "52" 52)
    (text_cell "Carol ") (text_cell "Heart Disease") (text_cell "Private")
    (number_cell "4" 4) (number_cell "90000" 90000).

Definition dave : string -> cell :=
  sheet_row (text_cell "C004") (text_cell "2024-05-02") (number_cell "38" 38)
    (text_cell "Dave") (text_cell "Flu") (text_cell "Government")
    (number_cell "0" 0) (number_cell "1200" 1200).

(** A row whose age cell holds text. *)
Definition erin : string -> cell :=
  sheet_row (text_cell "C005") (text_cell "2024-05-03") (text_cell "n/a")
    (text_cell "Erin") (text_cell "Flu") (text_cell "Clinic")
    (number_cell "1" 1) (number_cell "700" 700).

Definition demo_columns : list label :=
  [ Text "Customer ID"; Text "Date"; Text " Age"; Text "Name";
    Text "Diagnosis"; Text "Hospital Type"; Text "Previous Claims";
    Text "Claim Amount"; NotText ].

Definition demo_sheet : frame :=
  {| columns := demo_columns; iterrows := [carol; dave] |}.

Definition demo_sheet_gap : frame :=
  {| columns := demo_columns; iterrows := [carol; erin; dave] |}.

Definition demo_read_excel (bytes : string) : option frame :=
  if String.eqb bytes "sheet" then Some demo_sheet
  else if String.eqb bytes "sheet with a gap" then Some demo_sheet_gap
  else None.

Definition demo_str_accessor (labels : list label) : bool :=
  existsb (fun l => match l with Text _ => true | NotText => false end) labels.

(** The rows [carol] and [dave] as stored for user 1. *)
Definition carol_of_ana : customer_row :=
  {| cd_user_id := 1; cd_customer_id := "C003"; cd_date := "2024-05-01";
     cd_age := PyInt 52; cd_name := "Carol"; cd_diagnosis := "Heart Disease";
     cd_hospital_type := "Private"; cd_previous_claims := PyInt 4;
     cd_claim_amount := PyFloat 90000%float |}.

Definition dave_of_ana : customer_row :=
  {| cd_user_id := 1; cd_customer_id := "C004"; cd_date := "2024-05-02";
     cd_age := PyInt 38; cd_name := "Dave"; cd_diagnosis := "Flu";
     cd_hospital_type := "Government"; cd_previous_claims := PyInt 0;
     cd_claim_amount := PyFloat 1200%float |}.

(** A store whose profiles are all integers. *)
Definition demo_db_integers : database :=
  {| customer_data := [alice_of_raj; alice_2023; alice_2024];
     predictions := [];
     writable := true |}.

(** ** The training script *)

(** A line printed by [evaluate_model]. The two accuracies are printed
    with two decimals; a line of them is kept as the number itself. *)
Inductive printed : Type :=
  | TrainAccuracy (a : float)
  | TestAccuracy (a : float)
  | Line (s : string).

(** [evaluate_model] of [naive_bayes_model.py]: what it prints. The model
    is given by its [predict], and [accuracy_score] is the function of
    scikit-learn. *)
Definition evaluate_model {sample target : Type}
    (accuracy_score : list target -> list target -> float)
    (model : list sample -> list target)
    (X_train X_test : list sample) (y_train y_test : list target)
    : list printed :=
  let train_accuracy := accuracy_score y_train (model X_train) in
  let test_accuracy := accuracy_score y_test (model X_test) in
  [ TrainAccuracy train_accuracy;
    TestAccuracy test_accuracy;
    if (0.9 <? train_accuracy)%float && (test_accuracy <? 0.7)%float
    then Line "The model is overfitting."
    else if (train_accuracy <? 0.7)%float && (test_accuracy <? 0.7)%float
    then Line "The model is underfitting."
    else Line "The model has a good fit." ].

(** A sample [accuracy_score] on integer labels, the share of positions
    where the two lists agree, and a sample model that thresholds its
    input. *)
Definition demo_accuracy_score (y_true y_pred : list Z) : float :=
  (float_of_Z
     (Z.of_nat (List.length (filter (fun yy => (fst yy =? snd yy)%Z)
                               (combine y_true y_pred))))
   / float_of_Z (Z.of_nat (List.length y_true)))%float.

Definition demo_threshold_model (X : list Z) : list Z :=
  map (fun x => if 100 <? x then 1 else 0) X.

Definition demo_X_train : list Z := [10; 200; 30; 400; 50].
Definition demo_y_train : list Z := [0; 1; 0; 1; 1].
Definition demo_X_test : list Z := [5; 500].
Definition demo_y_test : list Z := [1; 0].

Section Scoring.

(** [float(s)] and [int(s)] on a string: Python's parsers, [None] when
    they raise [ValueError]. *)
Variable str_to_float : string -> option float.
Variable str_to_int : string -> option Z.

(** The built-in [float(v)]. *)
Definition py_float (v : pyval) : result float :=
  match v with
  | PyNone => Raise TypeError
  | PyInt z =>
      let f := float_of_Z z in
      if is_infinity f then Raise OverflowError else Ok f
  | PyFloat f => Ok f
  | PyStr s =>
      match str_to_float s with
      | Some f => Ok f
      | None => Raise ValueError
      end
  end.

(** The built-in [int(v)]. *)
Definition py_int (v : pyval) : result Z :=
  match v with
  | PyNone => Raise TypeError
  | PyInt z => Ok z
  | PyFloat f =>
      match Prim2SF f with
      | S754_nan => Raise ValueError
      | S754_infinity _ => Raise OverflowError
      | x => match trunc_SF x with Some z => Ok z | None => Raise ValueError end
      end
  | PyStr s =>
      match str_to_int s with
      | Some z => Ok z
      | None => Raise ValueError
      end
  end.

(** The unpickled [label_encoders] dict and the unpickled [model]:
    [model] stands for [model.predict_proba(frame.to_numpy())[0][1]],
    [None] when that expression raises. *)
Variable label_encoders : list (string * LabelEncoder).
Variable model : Features -> option float.

Definition preprocess_input (claim_amount : float) (age : Z)
    (diagnosis hospital_type : string) (previous_claims : Z) : Features :=
  let diagnosis_encoded :=
    try_except (le <- getitem label_encoders "Diagnosis" ;; transform le diagnosis) 0 in
  let hospital_type_encoded :=
    try_except (le <- getitem label_encoders "HospitalType" ;; transform le hospital_type) 0 in
  {| ClaimAmount := claim_amount;
     Age := age;
     Diagnosis := diagnosis_encoded;
     HospitalType := hospital_type_encoded;
     PreviousClaims := previous_claims |}.

(** The base prediction: [try: ... except: prediction_prob = 0.0]. *)
Definition base_probability (input_data : Features) : float :=
  match model input_data with
  | Some p => p
  | None => 0%float
  end.

(** The four rules of the [rules] dict, applied in the order of the source.
    [claim_amount] and [previous_claims] are the values of
    [float(claim_amount)] and [int(previous_claims)], which the source
    evaluates a second time here. *)
Definition apply_rules (prediction_prob : float) (claim_amount : float)
    (previous_claims : Z) (diagnosis hospital_type : string) : float :=
  let p1 :=
    if num_gt (Float claim_amount) (Int high_amount_threshold)
    then (prediction_prob + high_amount_adjustment)%float
    else prediction_prob in
  let p2 :=
    if previous_claims >? frequent_claims_threshold
    then (p1 + frequent_claims_adjustment)%float
    else p1 in
  let p3 :=
    if str_in (lower diagnosis) suspicious_diagnosis_list
    then (p2 + suspicious_diagnosis_adjustment)%float
    else p2 in
  if String.eqb (lower hospital_type) "private"
  then (p3 + private_hospital_adjustment)%float
  else p3.

(** [max(0, min(1, prediction_prob))] *)
Definition clamp (prediction_prob : float) : number :=
  py_max (Int 0) (py_min (Int 1) (Float prediction_prob)).

(** ["Fraud" if prediction_prob > 0.35 else "Legitimate"] *)
Definition verdict (prediction_prob : number) : string :=
  if num_gt prediction_prob (Float 0.35%float) then "Fraud" else "Legitimate".

(** [predict_fraud]: what the caller gets, and the store afterwards. The
    three coercions are evaluated in the order of the call at lines
    113-118: [float(claim_amount)], [int(age)], [int(previous_claims)]. *)
Definition predict_fraud (db : database) (user_id : Z)
    (customer_id name diagnosis hospital_type : string)
    (claim_amount : pyval) : outcome * database :=
  match fetch_profile db user_id customer_id name with
  | None => (Returned "Error: Customer profile not found" (Float 0%float), db)
  | Some (age, previous_claims) =>
      match (ca <- py_float claim_amount ;;
             a <- py_int age ;;
             pc <- py_int previous_claims ;;
             Ok (ca, a, pc)) with
      | Raise e => (Raised e, db)
      | Ok (ca, a, pc) =>
          let input_data := preprocess_input ca a diagnosis hospital_type pc in
          let prediction_prob := base_probability input_data in
          let prediction_prob :=
            apply_rules prediction_prob ca pc diagnosis hospital_type in
          let prediction_prob := clamp prediction_prob in
          let result := verdict prediction_prob in
          match insert_prediction db
                  {| pr_user_id := user_id;
                     pr_customer_id := customer_id;
                     pr_name := name;
                     pr_claim_amount := claim_amount;
                     pr_age := age;
                     pr_diagnosis := diagnosis;
                     pr_hospital_type := hospital_type;
                     pr_previous_claims := previous_claims;
                     pr_prediction := result;
                     pr_probability := prediction_prob |} with
          | Raise e => (Raised e, db)
          | Ok db' => (Returned result prediction_prob, db')
          end
      end
  end.

(** ** Vocabulary of the statements *)

(** No row of [customer_data] answers the query. *)
Definition no_history (db : database) (user_id : Z)
    (customer_id name : string) : Prop :=
  forall r, In r (customer_data db) -> matches user_id customer_id name r = false.

(** The row written for a scored claim. *)
Definition audit_row (user_id : Z) (customer_id name : string)
    (claim_amount age : pyval) (diagnosis hospital_type : string)
    (previous_claims : pyval) (p : number) : prediction_row :=
  {| pr_user_id := user_id;
     pr_customer_id := customer_id;
     pr_name := name;
     pr_claim_amount := claim_amount;
     pr_age := age;
     pr_diagnosis := diagnosis;
     pr_hospital_type := hospital_type;
     pr_previous_claims := previous_claims;
     pr_prediction := verdict p;
     pr_probability := p |}.

(** The probability computed once the three coercions went through. *)
Definition scored (ca : float) (a pc : Z) (diagnosis hospital_type : string)
    : number :=
  clamp (apply_rules
           (base_probability (preprocess_input ca a diagnosis hospital_type pc))
           ca pc diagnosis hospital_type).


(** The two verdicts. *)
Definition is_verdict (v : string) : Prop := v = "Fraud" \/ v = "Legitimate".

(** The predicates of the four rules, as tested by [apply_rules]. *)
Definition high_amount (ca : float) : bool :=
  num_gt (Float ca) (Int high_amount_threshold).

Definition frequent_claims (pc : Z) : bool := pc >? frequent_claims_threshold.

Definition suspicious_diagnosis (diagnosis : string) : bool :=
  str_in (lower diagnosis) suspicious_diagnosis_list.

Definition private_hospital (hospital_type : string) : bool :=
  String.eqb (lower hospital_type) "private".

(** Whether a column's fitted encoder knows a label; a column without
    an encoder knows none. *)
Definition seen (column label : string) : bool :=
  match getitem label_encoders column with
  | Ok le => str_in label (classes_ le)
  | Raise _ => false
  end.

(** Whether a computation returned. *)
Definition is_ok {A : Type} (c : result A) : bool :=
  match c with
  | Ok _ => true
  | Raise _ => false
  end.

(** The store after [row] has been appended to [predictions]. *)
Definition appended (db : database) (row : prediction_row) : database :=
  {| customer_data := customer_data db;
     predictions := predictions db ++ [row];
     writable := writable db |}.

(** ** Accounts *)

(** [str.strip()] and [hashlib.sha256(b).hexdigest()]. A string is its
    UTF-8 bytes, so [password.encode()] is the string itself. *)
Variable strip : string -> string.
Variable sha256_hex : string -> string.

Definition hash_password (password : string) : string := sha256_hex password.

(** [SELECT id, password FROM users WHERE username=?] and [fetchone()]. *)
Definition find_user (users : list user_row) (username : string)
    : option user_row :=
  find (fun u => String.eqb (us_username u) username) users.

(** [authenticate]: the user's id, or [None], and whether the password
    matches. *)
Definition authenticate (users : list user_row) (username password : string)
    : option Z * bool :=
  match find_user users username with
  | Some user =>
      (Some (us_id user), String.eqb (us_password user) (hash_password password))
  | None => (None, false)
  end.

(** The id [AUTOINCREMENT] gives the next row: one more than the largest
    id in use (no statement of the application deletes a user). *)
Definition next_user_id (users : list user_row) : Z :=
  1 + fold_right (fun u m => Z.max (us_id u) m) 0 users.

(** [login_user]: the login message and what [main_area] holds after the
    click. *)
Definition login_user (users : list user_row) (main_area : page)
    (login_username login_password : string) : pane * page :=
  let username := strip login_username in
  let password := strip login_password in
  if is_empty username || is_empty password
  then ({| object := Markdown "### Please enter both username and password";
           color := "red" |}, main_area)
  else
    let '(user_id, authenticated) := authenticate users username password in
    if authenticated
    then ({| object := Markdown "### Login successful! ✅"; color := "green" |},
          DashboardPage)
    else ({| object := Markdown "### Error: Invalid credentials"; color := "red" |},
          main_area).

(** [signup_user]: the [users] table and the signup message after the
    click. The [INSERT] fails with [IntegrityError], which is caught, when
    the username is taken; any other failure of the [INSERT] is not caught
    and leaves the handler as [OperationalError]. *)
Definition signup_user (users : list user_row) (db : database)
    (signup_username signup_password : string)
    : result (list user_row * pane) :=
  let username := strip signup_username in
  let password := strip signup_password in
  if is_empty username || is_empty password
  then Ok (users,
           {| object := Markdown "### Please enter both username and password";
              color := "red" |})
  else if py_len password <? 8
  then Ok (users,
           {| object := Markdown "### Password must be at least 8 characters";
              color := "red" |})
  else if negb (writable db)
  then Raise OperationalError
  else
    match find_user users username with
    | Some _ =>
        Ok (users,
            {| object := Markdown "### Error: Username already exists";
               color := "red" |})
    | None =>
        Ok (users ++ [ {| us_id := next_user_id users;
                          us_username := username;
                          us_password := hash_password password |} ],
            {| object := Markdown "### Signup successful! Please login. ✅";
               color := "green" |})
    end.

(** [go_to_signup] and [go_to_login]. *)
Definition go_to_signup : page := SignupPage.
Definition go_to_login : page := LoginPage.

(** The clicks of the login and signup pages, with the values of the
    widgets they read. *)
Inductive event : Type :=
  | ClickLogin (username password : string)
  | ClickSignup (username password : string)
  | ClickGoToSignup
  | ClickGoToLogin.

(** One click: the [users] table and [main_area] afterwards. A handler
    that raises leaves both as they were. *)
Definition click (db : database) (st : list user_row * page) (ev : event)
    : list user_row * page :=
  let '(users, main_area) := st in
  match ev with
  | ClickLogin u p => (users, snd (login_user users main_area u p))
  | ClickSignup u p =>
      match signup_user users db u p with
      | Ok (users', _) => (users', main_area)
      | Raise _ => (users, main_area)
      end
  | ClickGoToSignup => (users, go_to_signup)
  | ClickGoToLogin => (users, go_to_login)
  end.

Definition clicks (db : database) (st : list user_row * page)
    (evs : list event) : list user_row * page :=
  fold_left (click db) evs st.

(** ** The prediction form *)

(** [needle in hay] for strings. *)
Fixpoint contains (needle hay : string) : bool :=
  String.prefix needle hay
  || match hay with
     | EmptyString => false
     | String _ hay' => contains needle hay'
     end.

(** [predict_fraud] as [on_submit] calls it: with the [user_id] that
    [authenticate] returned. That is [None] only when [authenticated] is
    [False]; were it passed on, the [NULL] parameter would match no row. *)
Definition predict_fraud_for (db : database) (user_id : option Z)
    (customer_id name diagnosis hospital_type : string)
    (claim_amount : pyval) : outcome * database :=
  match user_id with
  | Some uid =>
      predict_fraud db uid customer_id name diagnosis hospital_type claim_amount
  | None => (Returned "Error: Customer profile not found" (Float 0%float), db)
  end.

(** [on_submit]: the [output] pane and the store after a click on
    "Predict", given the values of the widgets it reads. *)
Definition on_submit (users : list user_row) (db : database)
    (login_username login_password : string)
    (customer_id name diagnosis hospital_type claim_amount : string)
    : pane * database :=
  let '(user_id, authenticated) :=
    authenticate users login_username login_password in
  if negb authenticated
  then ({| object := Markdown "### Error: Please login first"; color := "red" |},
        db)
  else
    let required_fields :=
      [ ("Customer ID", strip customer_id);
        ("Name", strip name);
        ("Diagnosis", strip diagnosis);
        ("Hospital Type", hospital_type);
        ("Claim Amount", strip claim_amount) ] in
    if negb (forallb (fun kv => negb (is_empty (snd kv))) required_fields)
    then
      let missing :=
        map fst (filter (fun kv => is_empty (snd kv)) required_fields) in
      ({| object :=
            Markdown (String.append "### Error: Missing fields: "
                        (String.concat ", " missing));
          color := "red" |}, db)
    else
      match str_to_float claim_amount with
      | None =>
          ({| object := Markdown "### Error: Claim amount must be a number";
              color := "red" |}, db)
      | Some claim_amt =>
          match predict_fraud_for db user_id (strip customer_id) (strip name)
                  (strip diagnosis) hospital_type (PyFloat claim_amt) with
          | (Raised _, db') => ({| object := ErrorText; color := "red" |}, db')
          | (Returned result probability, db') =>
              if contains "Error:" result
              then ({| object := Markdown (String.append "### " result);
                       color := "red" |}, db')
              else ({| object := PredictionResults result probability;
                       color := if String.eqb result "Legitimate"
                                then "green" else "red" |}, db')
          end
      end.

(** ** The upload form *)

(** [pd.read_excel(io.BytesIO(b))], [None] when it raises; and whether
    pandas gives an index of these labels a [.str] accessor (it raises
    [AttributeError] when it does not). *)
Variable read_excel : string -> option frame.
Variable str_accessor : list label -> bool.

Definition required_cols : list string :=
  [ "customer_id"; "date"; "age"; "name"; "diagnosis"; "hospital_type";
    "previous_claims"; "claim_amount" ].

(** [df.columns.str.strip().str.lower().str.replace(' ', '_')] on one
    label; a label that is not text becomes NaN. [lower] acts on the ASCII
    letters only: no other character is lowered to a letter of the eight
    required names, so the test against [required_cols] sees what Python
    sees. *)
Definition rename (l : label) : option string :=
  match l with
  | Text s => Some (replace " " "_" (lower (strip s)))
  | NotText => None
  end.

(** The parameters of the [INSERT] for one row, evaluated from left to
    right. SQLite stores a NaN as [NULL]. *)
Definition to_customer_row (user_id : Z) (row : string -> cell)
    : result customer_row :=
  let customer_id := strip (cell_str (row "customer_id")) in
  let date := cell_str (row "date") in
  age <- cell_int (row "age") ;;
  let name := strip (cell_str (row "name")) in
  let diagnosis := strip (cell_str (row "diagnosis")) in
  let hospital_type := strip (cell_str (row "hospital_type")) in
  previous_claims <- cell_int (row "previous_claims") ;;
  claim_amount <- cell_float (row "claim_amount") ;;
  Ok {| cd_user_id := user_id;
        cd_customer_id := customer_id;
        cd_date := date;
        cd_age := PyInt age;
        cd_name := name;
        cd_diagnosis := diagnosis;
        cd_hospital_type := hospital_type;
        cd_previous_claims := PyInt previous_claims;
        cd_claim_amount :=
          if is_nan claim_amount then PyNone
          else PyFloat claim_amount |}.

(** [for _, row in df.iterrows(): cursor.execute(...)]: the exception that
    ended the loop, if any, and the store at that point. *)
Fixpoint insert_rows (user_id : Z) (db : database)
    (rows : list (string -> cell)) : result unit * database :=
  match rows with
  | [] => (Ok tt, db)
  | row :: rows' =>
      match (r <- to_customer_row user_id row ;; insert_customer db r) with
      | Ok db' => insert_rows user_id db' rows'
      | Raise e => (Raise e, db)
      end
  end.

(** [process_excel]: the [upload_output] pane and the store after a click
    on "Upload", given the value of the file widget and of the two login
    widgets. *)
Definition process_excel (users : list user_row) (db : database)
    (file_input : option string) (login_username login_password : string)
    : pane * database :=
  let no_file :=
    ({| object := Markdown "### Please select a file first"; color := "red" |},
     db) in
  let no_user :=
    ({| object := Markdown "### Error: Authentication failed";
        color := "red" |}, db) in
  let failed (db' : database) :=
    ({| object := ErrorText; color := "red" |}, db') in
  match file_input with
  | None => no_file
  | Some bytes =>
      if is_empty bytes then no_file
      else
        let '(user_id, _) :=
          authenticate users login_username login_password in
        match user_id with
        | None => no_user
        | Some uid =>
            if uid =? 0 then no_user
            else
              match read_excel bytes with
              | None => failed db
              | Some df =>
                  if negb (str_accessor (columns df)) then failed db
                  else
                    let cols := map rename (columns df) in
                    if negb (forallb (has_column cols) required_cols)
                    then
                      let missing :=
                        filter (fun c => negb (has_column cols c))
                          required_cols in
                      ({| object := MissingColumns missing; color := "red" |},
                       db)
                    else
                      match insert_rows uid db (iterrows df) with
                      | (Ok _, db') =>
                          ({| object :=
                                Markdown "### Data uploaded successfully! ✅";
                              color := "green" |}, db')
                      | (Raise _, db') => failed db'
                      end
              end
        end
  end.

(** ** Binary64: rounding and order *)

Lemma fexp_eq (e : Z) : fexp prec emax e = Z.max (e - 53) (-1074).
Proof. reflexivity. Qed.

Lemma pow2_pos (a : Z) : 0 <= a -> 0 < 2 ^ a.
Proof. intros H. apply Z.pow_pos_nonneg; lia. Qed.

Lemma pow2_split (a b : Z) : 0 <= a -> 0 <= b -> 2 ^ (a + b) = 2 ^ a * 2 ^ b.
Proof. intros Ha Hb. apply Z.pow_add_r; assumption. Qed.

Lemma pow2_le (a b : Z) : 0 <= a <= b -> 2 ^ a <= 2 ^ b.
Proof. intros H. apply Z.pow_le_mono_r; lia. Qed.

Lemma pow2_lt_inv (a b : Z) : 0 <= b -> 2 ^ a < 2 ^ b -> a < b.
Proof. intros Hb H. apply (Z.pow_lt_mono_r_iff 2); try lia. Qed.

Lemma digits_bounds (m : positive) :
  1 <= digits m /\ 2 ^ (digits m - 1) <= Zpos m < 2 ^ digits m.
Proof.
  unfold digits. induction m as [m IH | m IH | ]; cbn [digits2_pos].
  - destruct IH as (H1 & H2 & H3).
    rewrite Pos2Z.inj_succ. replace (Z.succ (Z.pos (digits2_pos m)) - 1) with (Z.pos (digits2_pos m) - 1 + 1) by lia.
    rewrite Z.pow_succ_r by lia. rewrite pow2_split by lia.
    change (2 ^ 1) with 2. lia.
  - destruct IH as (H1 & H2 & H3).
    rewrite Pos2Z.inj_succ. replace (Z.succ (Z.pos (digits2_pos m)) - 1) with (Z.pos (digits2_pos m) - 1 + 1) by lia.
    rewrite Z.pow_succ_r by lia. rewrite pow2_split by lia.
    change (2 ^ 1) with 2. lia.
  - cbn. lia.
Qed.

Lemma digits_unique (m : positive) (d : Z) :
  2 ^ (d - 1) <= Zpos m < 2 ^ d -> digits m = d.
Proof.
  intros [H1 H2]. destruct (digits_bounds m) as (H0 & H3 & H4).
  assert (0 < d).
  { destruct (Z_lt_le_dec 0 d) as [ | Hd]; [ assumption | exfalso ].
    destruct (Z.eq_dec d 0) as [-> | ]; [ cbn in H2; lia | ].
    rewrite (Z.pow_neg_r 2 d) in H2 by lia. lia. }
  assert (digits m - 1 < d) by (apply pow2_lt_inv; lia).
  assert (d - 1 < digits m) by (apply pow2_lt_inv; lia).
  lia.
Qed.

(** Iterating [shr_1]. *)
Lemma iter_pos_invariant {A : Type} (f : A -> A) (P : Z -> A -> Prop) :
  (forall n a, 0 <= n -> P n a -> P (n + 1) (f a)) ->
  forall p n a, 0 <= n -> P n a -> P (n + Zpos p) (iter_pos f p a).
Proof.
  intros Hstep. induction p as [p IH | p IH | ]; intros n a Hn Ha; cbn [iter_pos].
  - replace (n + Zpos p~1) with (n + 1 + Zpos p + Zpos p) by lia.
    apply IH; [ lia | ]. apply IH; [ lia | ]. apply Hstep; assumption.
  - replace (n + Zpos p~0) with (n + Zpos p + Zpos p) by lia.
    apply IH; [ lia | ]. apply IH; assumption.
  - apply Hstep; assumption.
Qed.

Lemma shr_1_spec (mrs : shr_record) :
  0 <= shr_m mrs ->
  shr_m (shr_1 mrs) = shr_m mrs / 2 /\
  shr_r (shr_1 mrs) = Z.odd (shr_m mrs) /\
  shr_s (shr_1 mrs) = shr_r mrs || shr_s mrs.
Proof.
  destruct mrs as [m r s]. cbn [shr_m shr_r shr_s]. intros Hm.
  destruct m as [ | [p | p | ] | p]; try lia; cbn [shr_1 shr_m shr_r shr_s].
  - repeat split. 
  - repeat split. rewrite Pos2Z.inj_xI. apply Z.div_unique with (r := 1); lia. 
  - repeat split. rewrite Pos2Z.inj_xO. apply Z.div_unique with (r := 0); lia.
  - repeat split.
Qed.

Lemma shifted_step (m0 n : Z) (mrs : shr_record) :
  0 <= m0 -> 0 <= n -> shifted m0 n mrs -> shifted m0 (n + 1) (shr_1 mrs).
Proof.
  intros Hm0 Hn [Hq Hz].
  assert (Hp : 0 < 2 ^ n) by (apply pow2_pos; lia).
  assert (Hq0 : 0 <= shr_m mrs) by (rewrite Hq; apply Z.div_pos; lia).
  destruct (shr_1_spec mrs Hq0) as (H1 & H2 & H3).
  unfold shifted. rewrite pow2_split by lia. change (2 ^ 1) with 2.
  split.
  - rewrite H1, Hq. rewrite Z.div_div by lia. reflexivity.
  - intros Hmod.
    assert (Hdiv : m0 = 2 ^ n * 2 * (m0 / (2 ^ n * 2))).
    { pose proof (Z.div_mod m0 (2 ^ n * 2)). lia. }
    assert (Hmodn : m0 mod 2 ^ n = 0).
    { rewrite Hdiv. rewrite <- Z.mul_assoc, Z.mul_comm. apply Z.mod_mul. lia. }
    destruct (Hz Hmodn) as [Er Es]. rewrite H2, H3, Er, Es. split; [ | reflexivity ].
    rewrite Hq. 
    assert (E : m0 / 2 ^ n = 2 * (m0 / (2 ^ n * 2))).
    { rewrite Hdiv at 1. rewrite <- Z.mul_assoc, Z.mul_comm. apply Z.div_mul. lia. }
    rewrite E. rewrite Z.odd_mul. reflexivity.
Qed.

Lemma shr_spec (m0 : Z) (e n : Z) :
  0 <= m0 -> 0 <= n ->
  shifted m0 n (fst (shr (Build_shr_record m0 false false) e n)) /\
  snd (shr (Build_shr_record m0 false false) e n) = e + n.
Proof.
  intros Hm Hn. destruct n as [ | p | p]; try lia; cbn [shr fst snd].
  - split; [ | lia ]. split; cbn [shr_m shr_r shr_s].
    + rewrite Z.div_1_r. reflexivity.
    + auto.
  - split; [ | reflexivity ].
    apply (iter_pos_invariant shr_1 (shifted m0)) with (n := 0).
    + intros n a Hn0. apply shifted_step; assumption.
    + lia.
    + split; cbn [shr_m shr_r shr_s]; [ rewrite Z.div_1_r; reflexivity | auto ].
Qed.

Lemma round_nearest_even_cases (mrs : shr_record) :
  let m1 := round_nearest_even (shr_m mrs) (loc_of_shr_record mrs) in
  m1 = shr_m mrs \/
  (m1 = shr_m mrs + 1 /\ (shr_r mrs = true \/ shr_s mrs = true)).
Proof.
  destruct mrs as [m [ | ] [ | ]]; cbn; auto.
  destruct (Z.even m); auto.
Qed.

Lemma shr_fexp_exact (m : positive) (e : Z) :
  e <= fexp prec emax (digits m + e) ->
  let k := fexp prec emax (digits m + e) - e in
  shifted (Zpos m) k (fst (shr_fexp prec emax (Zpos m) e loc_Exact)) /\
  snd (shr_fexp prec emax (Zpos m) e loc_Exact) = fexp prec emax (digits m + e).
Proof.
  intros Hk k. unfold shr_fexp. cbn [shr_record_of_loc Zdigits2].
  fold (digits m). fold k.
  destruct (shr_spec (Zpos m) e k) as [H1 H2]; [ lia | lia | ].
  split; [ exact H1 | ]. rewrite H2. unfold k. lia.
Qed.

(** What [binary_round_aux] returns for an exact positive mantissa whose
    exponent does not exceed the canonical one. *)
Lemma binary_round_aux_spec (s : bool) (mz : positive) (ez : Z) :
  -1074 <= ez ->
  ez <= fexp prec emax (digits mz + ez) ->
  exists (m1 : Z) (m2 : positive) (e2 : Z),
    (m1 = Zpos mz / 2 ^ (fexp prec emax (digits mz + ez) - ez) \/
     (m1 = Zpos mz / 2 ^ (fexp prec emax (digits mz + ez) - ez) + 1 /\
      Zpos mz mod 2 ^ (fexp prec emax (digits mz + ez) - ez) <> 0)) /\
    Zpos m2 * 2 ^ (e2 + 1074) = m1 * 2 ^ (fexp prec emax (digits mz + ez) + 1074) /\
    canonical m2 e2 /\
    binary_round_aux prec emax s (Zpos mz) ez loc_Exact =
    if e2 <=? emax - prec then S754_finite s m2 e2 else S754_infinity s.
Proof.
  intros Hez Hle.
  pose proof (shr_fexp_exact mz ez Hle) as Hshr. cbv zeta in Hshr.
  remember (fexp prec emax (digits mz + ez)) as E eqn:HeqE.
  remember (E - ez) as k eqn:Heqk.
  rewrite fexp_eq in HeqE.
  destruct (digits_bounds mz) as (Hd1 & Hd2 & Hd3).
  assert (Hk : 0 <= k) by lia.
  assert (Hpk : 0 < 2 ^ k) by (apply pow2_pos; lia).
  destruct Hshr as [[Hq Hz] He'].
  unfold binary_round_aux.
  destruct (shr_fexp prec emax (Zpos mz) ez loc_Exact) as [mrs' e'].
  cbn [fst snd] in Hq, Hz, He'. subst e'.
  pose proof (round_nearest_even_cases mrs') as Hr. cbv zeta in Hr.
  set (m1 := round_nearest_even (shr_m mrs') (loc_of_shr_record mrs')) in *.
  rewrite Hq in Hr.
  (* the rounded mantissa is one of the two neighbours *)
  assert (Hm1 : m1 = Zpos mz / 2 ^ k \/
                (m1 = Zpos mz / 2 ^ k + 1 /\ Zpos mz mod 2 ^ k <> 0)).
  { destruct Hr as [Hr | [Hr Hbits]]; [ left; exact Hr | right ].
    split; [ exact Hr | ]. intros Hmod. destruct (Hz Hmod) as [Er Es].
    rewrite Er, Es in Hbits. destruct Hbits; discriminate. }
  clear Hr Hz Hq.
  destruct (Z.eq_dec k 0) as [Hk0 | Hk0].
  - (* no shift: the value is kept *)
    assert (Em1 : m1 = Zpos mz).
    { rewrite Hk0 in Hm1. change (2 ^ 0) with 1 in Hm1.
      rewrite Z.div_1_r, Z.mod_1_r in Hm1. destruct Hm1 as [ | [_ Hc]]; [ assumption | congruence ]. }
    rewrite Em1.
    assert (EE : E = ez) by lia.
    assert (Hle2 : E <= fexp prec emax (digits mz + E)) by (rewrite fexp_eq; lia).
    destruct (shr_fexp_exact mz E Hle2) as [[Hq2 _] He2].
    destruct (shr_fexp prec emax (Zpos mz) E loc_Exact) as [mrs2 e2].
    cbn [fst snd] in Hq2, He2.
    assert (Ek2 : fexp prec emax (digits mz + E) - E = 0) by (rewrite fexp_eq; lia).
    rewrite Ek2 in Hq2. change (2 ^ 0) with 1 in Hq2. rewrite Z.div_1_r in Hq2.
    exists m1, mz, ez. split; [ exact Hm1 | ]. split; [ rewrite Em1, EE; reflexivity | ].
    split; [ unfold canonical; rewrite fexp_eq; lia | ].
    rewrite Hq2. replace e2 with ez by (rewrite fexp_eq in He2; lia). reflexivity.
  - (* a shift by [k > 0]: the quotient has exactly 53 digits *)
    assert (HE : E = digits mz + ez - 53) by lia.
    assert (Hkd : k = digits mz - 53) by lia.
    assert (Hsplit : 2 ^ digits mz = 2 ^ k * 2 ^ 53).
    { rewrite <- pow2_split by lia. f_equal. lia. }
    assert (Hsplit' : 2 ^ (digits mz - 1) = 2 ^ k * 2 ^ 52).
    { rewrite <- pow2_split by lia. f_equal. lia. }
    assert (Hqlo : 2 ^ 52 <= Zpos mz / 2 ^ k).
    { apply Z.div_le_lower_bound; lia. }
    assert (Hqhi : Zpos mz / 2 ^ k < 2 ^ 53).
    { apply Z.div_lt_upper_bound; lia. }
    assert (Hm1lo : 2 ^ 52 <= m1) by lia.
    assert (Hm1hi : m1 <= 2 ^ 53) by lia.
    destruct m1 as [ | p1 | p1] eqn:Ep1; try (exfalso; change (2 ^ 52) with 4503599627370496 in *; lia).
    destruct (Z.eq_dec (Zpos p1) (2 ^ 53)) as [Hcarry | Hcarry].
    + (* the mantissa was rounded up to 2^53 *)
      assert (Hdig : digits p1 = 54).
      { apply digits_unique. rewrite Hcarry. change (54 - 1) with 53.
        change (2 ^ 53) with 9007199254740992. change (2 ^ 54) with 18014398509481984. lia. }
      assert (Hle2 : E <= fexp prec emax (digits p1 + E)) by (rewrite Hdig, fexp_eq; lia).
      destruct (shr_fexp_exact p1 E Hle2) as [[Hq2 _] He2].
      destruct (shr_fexp prec emax (Zpos p1) E loc_Exact) as [mrs2 e2].
      cbn [fst snd] in Hq2, He2.
      assert (Ek2 : fexp prec emax (digits p1 + E) - E = 1) by (rewrite Hdig, fexp_eq; lia).
      assert (Ee2 : e2 = E + 1) by (rewrite Ek2 in *; lia).
      rewrite Ek2, Hcarry in Hq2. change (2 ^ 53 / 2 ^ 1) with (Zpos 4503599627370496) in Hq2.
      exists (Zpos p1), 4503599627370496%positive, (E + 1).
      split; [ exact Hm1 | ]. split.
      { rewrite Hcarry. replace (E + 1 + 1074) with (1 + (E + 1074)) by lia.
        rewrite pow2_split by lia. change (2 ^ 53) with (4503599627370496 * 2 ^ 1). lia. }
      split.
      { unfold canonical. change (digits 4503599627370496) with 53. rewrite fexp_eq. lia. }
      rewrite Hq2, Ee2. reflexivity.
    + assert (Hdig : digits p1 = 53).
      { apply digits_unique. change (53 - 1) with 52. lia. }
      assert (Hle2 : E <= fexp prec emax (digits p1 + E)) by (rewrite Hdig, fexp_eq; lia).
      destruct (shr_fexp_exact p1 E Hle2) as [[Hq2 _] He2].
      destruct (shr_fexp prec emax (Zpos p1) E loc_Exact) as [mrs2 e2].
      cbn [fst snd] in Hq2, He2.
      assert (Ek2 : fexp prec emax (digits p1 + E) - E = 0) by (rewrite Hdig, fexp_eq; lia).
      assert (Ee2 : e2 = E) by lia.
      rewrite Ek2 in Hq2. change (2 ^ 0) with 1 in Hq2. rewrite Z.div_1_r in Hq2.
      exists (Zpos p1), p1, E.
      split; [ exact Hm1 | ]. split; [ reflexivity | ].
      split; [ unfold canonical; rewrite Hdig, fexp_eq; lia | ].
      rewrite Hq2, Ee2. reflexivity.
Qed.

Lemma canonical_emin (m : positive) (e : Z) : canonical m e -> -1074 <= e.
Proof. unfold canonical. rewrite fexp_eq. lia. Qed.

Lemma canonical_digits (m : positive) (e : Z) : canonical m e -> digits m <= 53.
Proof. unfold canonical. rewrite fexp_eq. lia. Qed.

Lemma scaled_bounds (m : positive) (e : Z) :
  -1074 <= e ->
  2 ^ (digits m - 1 + (e + 1074)) <= scaled m e < 2 ^ (digits m + (e + 1074)).
Proof.
  intros He. destruct (digits_bounds m) as (H1 & H2 & H3). unfold scaled.
  rewrite (pow2_split (digits m - 1) (e + 1074)) by lia.
  rewrite (pow2_split (digits m) (e + 1074)) by lia.
  assert (0 < 2 ^ (e + 1074)) by (apply pow2_pos; lia).
  split.
  - apply Z.mul_le_mono_nonneg_r; lia.
  - apply Z.mul_lt_mono_pos_r; lia.
Qed.

(** A smaller value has no larger magnitude. *)
Lemma scaled_le_digits (m1 m2 : positive) (e1 e2 : Z) :
  -1074 <= e1 -> -1074 <= e2 ->
  scaled m1 e1 <= scaled m2 e2 ->
  digits m1 + e1 <= digits m2 + e2.
Proof.
  intros H1 H2 Hle.
  destruct (scaled_bounds m1 e1 H1) as [Ha _].
  destruct (scaled_bounds m2 e2 H2) as [_ Hb].
  destruct (digits_bounds m1) as (? & _). destruct (digits_bounds m2) as (? & _).
  assert (digits m1 - 1 + (e1 + 1074) < digits m2 + (e2 + 1074)).
  { apply pow2_lt_inv; lia. }
  lia.
Qed.

(** On canonical floats the order of the values is the lexicographic order
    of exponent and mantissa. *)
Lemma canonical_le (m1 m2 : positive) (e1 e2 : Z) :
  canonical m1 e1 -> canonical m2 e2 ->
  scaled m1 e1 <= scaled m2 e2 ->
  e1 < e2 \/ (e1 = e2 /\ (m1 <= m2)%positive).
Proof.
  intros C1 C2 Hle.
  pose proof (canonical_emin _ _ C1). pose proof (canonical_emin _ _ C2).
  pose proof (scaled_le_digits _ _ _ _ H H0 Hle) as Hd.
  unfold canonical in C1, C2. rewrite fexp_eq in C1, C2.
  destruct (Z_lt_le_dec e1 e2) as [ | Hge]; [ left; assumption | right ].
  assert (e1 = e2) by lia. subst e2. split; [ reflexivity | ].
  unfold scaled in Hle.
  assert (0 < 2 ^ (e1 + 1074)) by (apply pow2_pos; lia).
  apply Z.mul_le_mono_pos_r in Hle; [ | assumption ]. lia.
Qed.

(** Rounding does not cross a representable value from above... *)
Lemma round_lower (mz m2 mx : positive) (ez e2 ex : Z) :
  -1074 <= ez ->
  ez <= fexp prec emax (digits mz + ez) ->
  rounds_to mz ez m2 e2 ->
  canonical mx ex ->
  scaled mx ex <= scaled mz ez ->
  scaled mx ex <= scaled m2 e2.
Proof.
  intros Hez Hle [_ (m1 & Hm1 & Hval)] Cx Hxy.
  pose proof (canonical_emin _ _ Cx) as Hex.
  pose proof (canonical_digits _ _ Cx) as Hdx.
  pose proof (scaled_le_digits _ _ _ _ Hex Hez Hxy) as Hmag.
  remember (fexp prec emax (digits mz + ez)) as E eqn:HeqE.
  remember (E - ez) as k eqn:Heqk.
  rewrite fexp_eq in HeqE.
  unfold canonical in Cx. rewrite fexp_eq in Cx.
  destruct (digits_bounds mz) as (Hd1 & Hd2 & Hd3).
  assert (Hk : 0 <= k) by lia.
  assert (Hpk : 0 < 2 ^ k) by (apply pow2_pos; lia).
  assert (HpE : 0 < 2 ^ (E + 1074)) by (apply pow2_pos; lia).
  assert (Hq : Zpos mz / 2 ^ k <= m1) by lia.
  rewrite Hval.
  apply Z.le_trans with (Zpos mz / 2 ^ k * 2 ^ (E + 1074));
    [ | apply Z.mul_le_mono_nonneg_r; lia ].
  assert (HexE : ex <= E) by lia.
  destruct (Z.eq_dec ex E) as [Heq | Hne].
  - subst ex. unfold scaled in *.
    replace (E + 1074) with (k + (ez + 1074)) in Hxy by lia.
    rewrite (pow2_split k (ez + 1074)) in Hxy by lia.
    assert (Hp : 0 < 2 ^ (ez + 1074)) by (apply pow2_pos; lia).
    rewrite Z.mul_assoc in Hxy.
    apply Z.mul_le_mono_pos_r in Hxy; [ | assumption ].
    apply Z.mul_le_mono_nonneg_r; [ lia | ].
    apply Z.div_le_lower_bound; lia.
  - assert (HE : E = digits mz + ez - 53) by lia.
    assert (Hkd : k = digits mz - 53) by lia.
    assert (Hsplit' : 2 ^ (digits mz - 1) = 2 ^ k * 2 ^ 52).
    { rewrite <- (pow2_split k 52) by lia. f_equal. lia. }
    assert (Hqlo : 2 ^ 52 <= Zpos mz / 2 ^ k).
    { apply Z.div_le_lower_bound; lia. }
    destruct (scaled_bounds mx ex Hex) as [_ Hxhi].
    apply Z.le_trans with (2 ^ 52 * 2 ^ (E + 1074));
      [ | apply Z.mul_le_mono_nonneg_r; lia ].
    rewrite <- (pow2_split 52 (E + 1074)) by lia.
    apply Z.le_trans with (2 ^ (digits mx + (ex + 1074))); [ lia | ].
    destruct (digits_bounds mx) as (? & _).
    apply pow2_le. lia.
Qed.

(** ... nor from below. *)
Lemma round_upper (mz m2 mx : positive) (ez e2 ex : Z) :
  -1074 <= ez ->
  ez <= fexp prec emax (digits mz + ez) ->
  rounds_to mz ez m2 e2 ->
  canonical mx ex ->
  scaled mz ez <= scaled mx ex ->
  scaled m2 e2 <= scaled mx ex.
Proof.
  intros Hez Hle [_ (m1 & Hm1 & Hval)] Cx Hxy.
  pose proof (canonical_emin _ _ Cx) as Hex.
  pose proof (scaled_le_digits _ _ _ _ Hez Hex Hxy) as Hmag.
  remember (fexp prec emax (digits mz + ez)) as E eqn:HeqE.
  remember (E - ez) as k eqn:Heqk.
  rewrite fexp_eq in HeqE.
  unfold canonical in Cx. rewrite fexp_eq in Cx.
  assert (Hk : 0 <= k) by lia.
  assert (Hpk : 0 < 2 ^ k) by (apply pow2_pos; lia).
  assert (HpE : 0 < 2 ^ (E + 1074)) by (apply pow2_pos; lia).
  assert (HEx : E <= ex) by lia.
  rewrite Hval. unfold scaled in *.
  replace (ex + 1074) with (ex - E + (E + 1074)) in Hxy |- * by lia.
  rewrite (pow2_split (ex - E) (E + 1074)) in Hxy |- * by lia.
  rewrite Z.mul_assoc in Hxy |- *.
  remember (Zpos mx * 2 ^ (ex - E)) as X eqn:HeqX.
  apply Z.mul_le_mono_nonneg_r; [ lia | ].
  replace (E + 1074) with (k + (ez + 1074)) in Hxy by lia.
  rewrite (pow2_split k (ez + 1074)) in Hxy by lia.
  assert (Hp : 0 < 2 ^ (ez + 1074)) by (apply pow2_pos; lia).
  rewrite Z.mul_assoc in Hxy.
  apply Z.mul_le_mono_pos_r in Hxy; [ | assumption ].
  pose proof (Z.div_mod (Zpos mz) (2 ^ k) ltac:(lia)) as Hdm.
  pose proof (Z.mod_pos_bound (Zpos mz) (2 ^ k) Hpk) as Hmb.
  destruct Hm1 as [-> | [-> Hne]]; nia.
Qed.

Lemma iter_xO (m d : positive) : Zpos (Pos.iter xO m d) = Zpos m * 2 ^ Zpos d.
Proof.
  induction d as [ | d IH] using Pos.peano_ind.
  - cbn. lia.
  - rewrite Pos.iter_succ, Pos2Z.inj_xO, IH, Pos2Z.inj_succ, Z.pow_succ_r by lia. lia.
Qed.

Lemma shl_align_spec (m : positive) (e e' : Z) :
  snd (shl_align m e e') = Z.min e e' /\
  Zpos (fst (shl_align m e e')) = Zpos m * 2 ^ (e - Z.min e e').
Proof.
  unfold shl_align. destruct (e' - e) as [ | d | d] eqn:Hd; cbn [fst snd].
  - split; [ lia | ]. replace (e - Z.min e e') with 0 by lia. cbn. lia.
  - split; [ lia | ]. replace (e - Z.min e e') with 0 by lia. cbn. lia.
  - split; [ lia | ]. rewrite iter_xO. f_equal. f_equal. lia.
Qed.

Lemma digits_shift (m mz : positive) (j : Z) :
  0 <= j -> Zpos mz = Zpos m * 2 ^ j -> digits mz = digits m + j.
Proof.
  intros Hj Hmz. destruct (digits_bounds m) as (H1 & H2 & H3).
  assert (Hp : 0 < 2 ^ j) by (apply pow2_pos; lia).
  apply digits_unique. rewrite Hmz.
  replace (digits m + j - 1) with (digits m - 1 + j) by lia.
  rewrite (pow2_split (digits m - 1) j), (pow2_split (digits m) j) by lia.
  split.
  - apply Z.mul_le_mono_nonneg_r; lia.
  - apply Z.mul_lt_mono_pos_r; lia.
Qed.

Lemma binary_round_spec (s : bool) (m : positive) (e : Z) :
  -1074 <= e ->
  exists (mz : positive) (ez : Z) (m2 : positive) (e2 : Z),
    -1074 <= ez /\
    ez <= fexp prec emax (digits mz + ez) /\
    scaled mz ez = scaled m e /\
    rounds_to mz ez m2 e2 /\
    binary_round prec emax s m e =
    if e2 <=? emax - prec then S754_finite s m2 e2 else S754_infinity s.
Proof.
  intros He. unfold binary_round. fold (digits m).
  destruct (shl_align_spec m e (fexp prec emax (digits m + e))) as [Hs Hf].
  destruct (shl_align m e (fexp prec emax (digits m + e))) as [mz ez].
  cbn [fst snd] in Hs, Hf.
  assert (Hfe : -1074 <= fexp prec emax (digits m + e)) by (rewrite fexp_eq; lia).
  assert (Hez : -1074 <= ez) by lia.
  assert (Hdig : digits mz = digits m + (e - ez)).
  { apply digits_shift; [ lia | ]. rewrite Hf, Hs. reflexivity. }
  assert (Hle : ez <= fexp prec emax (digits mz + ez)).
  { rewrite Hdig. replace (digits m + (e - ez) + ez) with (digits m + e) by lia. lia. }
  destruct (binary_round_aux_spec s mz ez Hez Hle) as (m1 & m2 & e2 & Hm1 & Hval & Hcan & Hres).
  exists mz, ez, m2, e2. repeat split; try assumption.
  - unfold scaled. rewrite Hf, <- Hs.
    replace (e + 1074) with (e - ez + (ez + 1074)) by lia.
    rewrite (pow2_split (e - ez) (ez + 1074)) by lia. lia.
  - exists m1. split; assumption.
Qed.

(** The order of two positive canonical floats, and of two negative ones. *)
Lemma SFleb_pos (m1 m2 : positive) (e1 e2 : Z) :
  canonical m1 e1 -> canonical m2 e2 ->
  scaled m1 e1 <= scaled m2 e2 ->
  SFleb (S754_finite false m1 e1) (S754_finite false m2 e2) = true.
Proof.
  intros C1 C2 Hle. unfold SFleb, SFcompare.
  destruct (canonical_le _ _ _ _ C1 C2 Hle) as [Hlt | [-> Hm]].
  - apply Z.compare_lt_iff in Hlt. rewrite Hlt. reflexivity.
  - rewrite Z.compare_refl. change (Pos.compare_cont Eq m1 m2) with (m1 ?= m2)%positive.
    destruct (Pos.compare_spec m1 m2) as [Hc | Hc | Hc]; try reflexivity.
    clear - Hm Hc. lia.
Qed.

Lemma SFleb_neg (m1 m2 : positive) (e1 e2 : Z) :
  canonical m1 e1 -> canonical m2 e2 ->
  scaled m2 e2 <= scaled m1 e1 ->
  SFleb (S754_finite true m1 e1) (S754_finite true m2 e2) = true.
Proof.
  intros C1 C2 Hle. unfold SFleb, SFcompare.
  destruct (canonical_le _ _ _ _ C2 C1 Hle) as [Hlt | [-> Hm]].
  - apply Z.compare_gt_iff in Hlt. rewrite Hlt. reflexivity.
  - rewrite Z.compare_refl. change (Pos.compare_cont Eq m1 m2) with (m1 ?= m2)%positive.
    destruct (Pos.compare_spec m1 m2) as [Hc | Hc | Hc]; try reflexivity.
    clear - Hm Hc. lia.
Qed.

Lemma valid_canonical (s : bool) (m : positive) (e : Z) :
  valid_binary (S754_finite s m e) = true ->
  canonical m e /\ e <= 971.
Proof.
  cbn [valid_binary]. unfold bounded, canonical_mantissa. fold (digits m).
  intros H. apply andb_prop in H. destruct H as [H1 H2].
  apply Z.eqb_eq in H1. apply Z.leb_le in H2. split; [ exact H1 | exact H2 ].
Qed.

(** Adding a positive finite number never yields a smaller float. *)
Lemma SFadd_increases (x : spec_float) (md : positive) (ed : Z) :
  valid_binary x = true ->
  valid_binary (S754_finite false md ed) = true ->
  x <> S754_nan ->
  SFleb x (SFadd prec emax x (S754_finite false md ed)) = true.
Proof.
  intros Vx Vd Hnan.
  destruct (valid_canonical _ _ _ Vd) as [Cd Hed].
  pose proof (canonical_emin _ _ Cd) as Hed0.
  destruct x as [sx | sx | | sx mx ex].
  - destruct sx; reflexivity.
  - destruct sx; reflexivity.
  - congruence.
  - destruct (valid_canonical _ _ _ Vx) as [Cx Hex].
    pose proof (canonical_emin _ _ Cx) as Hex0.
    cbn [SFadd].
    destruct (shl_align_spec mx ex (Z.min ex ed)) as [_ HA].
    destruct (shl_align_spec md ed (Z.min ex ed)) as [_ HB].
    rewrite HA, HB. clear HA HB.
    replace (Z.min ex (Z.min ex ed)) with (Z.min ex ed) by lia.
    replace (Z.min ed (Z.min ex ed)) with (Z.min ex ed) by lia.
    remember (Z.min ex ed) as ez eqn:Hez.
    assert (Hez0 : -1074 <= ez) by lia.
    assert (Hp : 0 < 2 ^ (ez + 1074)) by (apply pow2_pos; lia).
    remember (Zpos mx * 2 ^ (ex - ez)) as A eqn:HeqA.
    remember (Zpos md * 2 ^ (ed - ez)) as B eqn:HeqB.
    assert (HA : scaled mx ex = A * 2 ^ (ez + 1074)).
    { unfold scaled. rewrite HeqA. replace (ex + 1074) with (ex - ez + (ez + 1074)) by lia.
      rewrite (pow2_split (ex - ez) (ez + 1074)) by lia. lia. }
    assert (HApos : 0 < A).
    { rewrite HeqA. apply Z.mul_pos_pos; [ lia | apply pow2_pos; lia ]. }
    assert (HBpos : 0 < B).
    { rewrite HeqB. apply Z.mul_pos_pos; [ lia | apply pow2_pos; lia ]. }
    cbn [cond_Zopp].
    destruct sx; cbn [cond_Zopp].
    + (* x is negative *)
      destruct (- A + B) as [ | Mp | Mp] eqn:HM; cbn [binary_normalize].
      * reflexivity.
      * destruct (binary_round_spec false Mp ez Hez0)
          as (mz & ezz & m2 & e2 & _ & _ & _ & _ & ->).
        destruct (e2 <=? emax - prec); reflexivity.
      * destruct (binary_round_spec true Mp ez Hez0)
          as (mz & ezz & m2 & e2 & Hz0 & Hzle & Hzval & Hround & ->).
        assert (Hup : scaled m2 e2 <= scaled mx ex).
        { apply (round_upper mz m2 mx ezz e2 ex); try assumption.
          rewrite Hzval, HA. unfold scaled.
          apply Z.mul_le_mono_nonneg_r; lia. }
        destruct Hround as [C2 _].
        destruct (canonical_le _ _ _ _ C2 Cx Hup) as [Hlt | [Heq _]].
        -- replace (e2 <=? emax - prec) with true
             by (symmetry; apply Z.leb_le; change (emax - prec) with 971; lia).
           apply SFleb_neg; assumption.
        -- replace (e2 <=? emax - prec) with true
             by (symmetry; apply Z.leb_le; change (emax - prec) with 971; lia).
           apply SFleb_neg; assumption.
    + (* x is positive *)
      destruct (A + B) as [ | Mp | Mp] eqn:HM; try lia. cbn [binary_normalize].
      destruct (binary_round_spec false Mp ez Hez0)
        as (mz & ezz & m2 & e2 & Hz0 & Hzle & Hzval & Hround & ->).
      assert (Hlo : scaled mx ex <= scaled m2 e2).
      { apply (round_lower mz m2 mx ezz e2 ex); try assumption.
        rewrite Hzval, HA. unfold scaled.
        apply Z.mul_le_mono_nonneg_r; lia. }
      destruct Hround as [C2 _].
      destruct (e2 <=? emax - prec); [ | reflexivity ].
      apply SFleb_pos; assumption.
Qed.

(** The same on primitive floats. *)
Lemma add_increases (x d : float) (md : positive) (ed : Z) :
  Prim2SF d = S754_finite false md ed ->
  Prim2SF x <> S754_nan ->
  (x <=? x + d)%float = true.
Proof.
  intros Hd Hx.
  rewrite leb_spec, add_spec, Hd.
  apply SFadd_increases.
  - apply Prim2SF_valid.
  - rewrite <- Hd. apply Prim2SF_valid.
  - exact Hx.
Qed.

Ltac split_float x :=
  destruct x as [[ | ] | [ | ] | | [ | ] ? ?].

Ltac order_cases :=
  repeat match goal with
    | H : context [Z.compare ?a ?b] |- _ => destruct (Z.compare_spec a b); try subst
    | |- context [Z.compare ?a ?b] => destruct (Z.compare_spec a b); try subst
    | H : context [Pos.compare_cont Eq ?a ?b] |- _ =>
        change (Pos.compare_cont Eq a b) with (Pos.compare a b) in *;
        destruct (Pos.compare_spec a b); try subst
    | |- context [Pos.compare_cont Eq ?a ?b] =>
        change (Pos.compare_cont Eq a b) with (Pos.compare a b) in *;
        destruct (Pos.compare_spec a b); try subst
    end;
  cbn in *; try reflexivity; try discriminate; try lia.

Lemma SFleb_trans (x y z : spec_float) :
  SFleb x y = true -> SFleb y z = true -> SFleb x z = true.
Proof.
  unfold SFleb, SFcompare.
  split_float x; split_float y; split_float z; intros H1 H2;
    try reflexivity; try discriminate; order_cases.
Qed.

Lemma SFleb_ltb_trans (x y z : spec_float) :
  SFleb x y = true -> SFltb y z = true -> SFltb x z = true.
Proof.
  unfold SFleb, SFltb, SFcompare.
  split_float x; split_float y; split_float z; intros H1 H2;
    try reflexivity; try discriminate; order_cases.
Qed.

Lemma SFltb_or_leb (x y : spec_float) :
  x <> S754_nan -> y <> S754_nan -> SFltb x y = true \/ SFleb y x = true.
Proof.
  unfold SFleb, SFltb, SFcompare.
  split_float x; split_float y; intros H1 H2; try congruence;
    try (left; reflexivity); try (right; reflexivity).
  - destruct (Z.compare_spec e e0); try subst.
    + change (Pos.compare_cont Eq m m0) with (Pos.compare m m0).
      change (Pos.compare_cont Eq m0 m) with (Pos.compare m0 m).
      rewrite Z.compare_refl. rewrite (Pos.compare_antisym m m0).
      destruct (Pos.compare m m0); cbn; auto.
    + right. apply Z.compare_gt_iff in H. rewrite H. reflexivity.
    + left. reflexivity.
  - destruct (Z.compare_spec e e0); try subst.
    + change (Pos.compare_cont Eq m m0) with (Pos.compare m m0).
      change (Pos.compare_cont Eq m0 m) with (Pos.compare m0 m).
      rewrite Z.compare_refl. rewrite (Pos.compare_antisym m m0).
      destruct (Pos.compare m m0); cbn; auto.
    + left. reflexivity.
    + right. apply Z.compare_lt_iff in H. rewrite H. reflexivity.
Qed.

Lemma SFltb_not_nan (x y : spec_float) :
  SFltb x y = true -> x <> S754_nan /\ y <> S754_nan.
Proof.
  unfold SFltb, SFcompare. split_float x; split_float y; intros H;
    try discriminate H; split; discriminate.
Qed.

(** ** Auxiliary facts *)

Lemma float_of_Z_0 : float_of_Z 0 = 0%float.
Proof. reflexivity. Qed.

Lemma float_of_Z_1 : float_of_Z 1 = 1%float.
Proof. vm_compute. reflexivity. Qed.

Lemma float_ltb_leb (x y : float) :
  PrimFloat.ltb x y = true -> PrimFloat.leb x y = true.
Proof.
  rewrite ltb_spec, leb_spec. unfold SFltb, SFleb.
  destruct (SFcompare (Prim2SF x) (Prim2SF y)) as [[ | | ] | ]; congruence.
Qed.

Lemma SFleb_refl (x : spec_float) : x <> S754_nan -> SFleb x x = true.
Proof.
  unfold SFleb, SFcompare. split_float x; intros H; try reflexivity; try congruence.
  - rewrite Z.compare_refl. change (Pos.compare_cont Eq m m) with (Pos.compare m m).
    rewrite Pos.compare_refl. reflexivity.
  - rewrite Z.compare_refl. change (Pos.compare_cont Eq m m) with (Pos.compare m m).
    rewrite Pos.compare_refl. reflexivity.
Qed.

Lemma SFleb_not_nan (x y : spec_float) :
  SFleb x y = true -> x <> S754_nan /\ y <> S754_nan.
Proof.
  unfold SFleb, SFcompare. split_float x; split_float y; intros H;
    try discriminate H; split; discriminate.
Qed.

Lemma is_nan_false (x : float) : is_nan x = false <-> Prim2SF x <> S754_nan.
Proof.
  unfold is_nan. destruct (Prim2SF x); split; intros H; congruence.
Qed.

Lemma float_leb_refl (x : float) : is_nan x = false -> PrimFloat.leb x x = true.
Proof. rewrite is_nan_false, leb_spec. apply SFleb_refl. Qed.

Lemma float_leb_trans (x y z : float) :
  PrimFloat.leb x y = true -> PrimFloat.leb y z = true -> PrimFloat.leb x z = true.
Proof. rewrite !leb_spec. apply SFleb_trans. Qed.

Lemma float_leb_ltb_trans (x y z : float) :
  PrimFloat.leb x y = true -> PrimFloat.ltb y z = true -> PrimFloat.ltb x z = true.
Proof. rewrite leb_spec, !ltb_spec. apply SFleb_ltb_trans. Qed.

Lemma float_ltb_or_leb (x y : float) :
  is_nan x = false -> is_nan y = false ->
  PrimFloat.ltb x y = true \/ PrimFloat.leb y x = true.
Proof. rewrite !is_nan_false, ltb_spec, leb_spec. apply SFltb_or_leb. Qed.

Lemma float_ltb_not_nan (x y : float) :
  PrimFloat.ltb x y = true -> is_nan x = false /\ is_nan y = false.
Proof. rewrite !is_nan_false, ltb_spec. apply SFltb_not_nan. Qed.

Lemma float_leb_not_nan (x y : float) :
  PrimFloat.leb x y = true -> is_nan x = false /\ is_nan y = false.
Proof. rewrite !is_nan_false, leb_spec. apply SFleb_not_nan. Qed.

Lemma float_nan_ltb (x y : float) : is_nan x = true -> PrimFloat.ltb x y = false.
Proof.
  unfold is_nan. rewrite ltb_spec. destruct (Prim2SF x); try discriminate.
  reflexivity.
Qed.

Lemma float_nan_add (x d : float) : is_nan x = true -> is_nan (x + d) = true.
Proof.
  unfold is_nan. rewrite add_spec. destruct (Prim2SF x); try discriminate.
  reflexivity.
Qed.

Lemma float_add_increases (x d : float) :
  positive_finite d = true -> is_nan x = false ->
  PrimFloat.leb x (x + d) = true.
Proof.
  unfold positive_finite. intros Hd Hx. apply is_nan_false in Hx.
  destruct (Prim2SF d) as [ | | | [ | ] md ed] eqn:E; try discriminate Hd.
  exact (add_increases x d md ed E Hx).
Qed.

(** The clamp yields the [int] 0, the [int] 1, or the float itself when
    it lies strictly between them. *)
Lemma clamp_cases (p : float) :
  clamp p = Int 0 \/ clamp p = Int 1 \/
  (clamp p = Float p /\ PrimFloat.ltb 0 p = true /\ PrimFloat.ltb p 1 = true).
Proof.
  unfold clamp, py_min, py_max, num_gt, num_lt. cbn [as_float].
  rewrite float_of_Z_1.
  destruct (PrimFloat.ltb p 1) eqn:H1.
  - cbn [as_float]. rewrite float_of_Z_0.
    destruct (PrimFloat.ltb 0 p) eqn:H0.
    + right; right. repeat split; reflexivity.
    + left. reflexivity.
  - right; left. reflexivity.
Qed.

Lemma clamp_unit (p : float) :
  num_le (Int 0) (clamp p) = true /\ num_le (clamp p) (Int 1) = true.
Proof.
  destruct (clamp_cases p) as [E | [E | (E & H0 & H1)]]; rewrite E.
  - split; reflexivity.
  - split; reflexivity.
  - unfold num_le. cbn [as_float]. rewrite float_of_Z_0, float_of_Z_1.
    split; apply float_ltb_leb; assumption.
Qed.

(** Which of the three values the clamp takes. *)
Lemma clamp_spec (p : float) :
  (PrimFloat.ltb p 1 = false /\ clamp p = Int 1) \/
  (PrimFloat.ltb p 1 = true /\ PrimFloat.ltb 0 p = true /\ clamp p = Float p) \/
  (PrimFloat.ltb p 1 = true /\ PrimFloat.ltb 0 p = false /\ clamp p = Int 0).
Proof.
  unfold clamp, py_min, py_max, num_gt, num_lt. cbn [as_float].
  rewrite float_of_Z_1.
  destruct (PrimFloat.ltb p 1) eqn:H1.
  - cbn [as_float]. rewrite float_of_Z_0.
    destruct (PrimFloat.ltb 0 p) eqn:H0.
    + right; left. repeat split; reflexivity.
    + right; right. repeat split; reflexivity.
  - left. split; reflexivity.
Qed.

Lemma latest_none (rows : list customer_row) :
  latest rows = None <-> rows = [].
Proof.
  destruct rows as [ | r rows]; cbn.
  - tauto.
  - split; [ | discriminate ].
    destruct (latest rows) as [r' | ]; [ | discriminate ].
    destruct (String.ltb _ _); discriminate.
Qed.

Lemma filter_nil_iff {A : Type} (f : A -> bool) (l : list A) :
  filter f l = [] <-> (forall x, In x l -> f x = false).
Proof.
  induction l as [ | a l IH]; cbn.
  - tauto.
  - destruct (f a) eqn:Ha.
    + split; [ discriminate | ].
      intros H. specialize (H a (or_introl eq_refl)). congruence.
    + rewrite IH. split.
      * intros H x [<- | Hx]; auto.
      * intros H x Hx. apply H. now right.
Qed.

Lemma fetch_profile_none (db : database) (user_id : Z)
    (customer_id name : string) :
  fetch_profile db user_id customer_id name = None <->
  no_history db user_id customer_id name.
Proof.
  unfold fetch_profile, no_history. rewrite <- filter_nil_iff, <- latest_none.
  destruct (latest _); split; congruence.
Qed.

Lemma predict_fraud_found (db : database) (user_id : Z)
    (customer_id name diagnosis hospital_type : string)
    (claim_amount age previous_claims : pyval) (ca : float) (a pc : Z) :
  fetch_profile db user_id customer_id name = Some (age, previous_claims) ->
  py_float claim_amount = Ok ca ->
  py_int age = Ok a ->
  py_int previous_claims = Ok pc ->
  predict_fraud db user_id customer_id name diagnosis hospital_type claim_amount =
  match insert_prediction db
          (audit_row user_id customer_id name claim_amount age diagnosis
             hospital_type previous_claims
             (scored ca a pc diagnosis hospital_type)) with
  | Ok db' =>
      (Returned (verdict (scored ca a pc diagnosis hospital_type))
         (scored ca a pc diagnosis hospital_type), db')
  | Raise e => (Raised e, db)
  end.
Proof.
  intros Hf Hc Ha Hp. unfold predict_fraud.
  rewrite Hf, Hc. cbn [bind]. rewrite Ha. cbn [bind]. rewrite Hp. cbn [bind].
  reflexivity.
Qed.

Lemma predict_fraud_missing (db : database) (user_id : Z)
    (customer_id name diagnosis hospital_type : string) (claim_amount : pyval) :
  fetch_profile db user_id customer_id name = None ->
  predict_fraud db user_id customer_id name diagnosis hospital_type claim_amount =
  (Returned "Error: Customer profile not found" (Float 0%float), db).
Proof. intros Hf. unfold predict_fraud. rewrite Hf. reflexivity. Qed.

(** Every way in which [predict_fraud] can return to its caller. *)
Lemma predict_fraud_returned (db db' : database) (user_id : Z)
    (customer_id name diagnosis hospital_type : string)
    (claim_amount : pyval) (v : string) (p : number) :
  predict_fraud db user_id customer_id name diagnosis hospital_type claim_amount
    = (Returned v p, db') ->
  (fetch_profile db user_id customer_id name = None /\
   v = "Error: Customer profile not found" /\ p = Float 0%float /\ db' = db)
  \/
  (exists age previous_claims ca a pc,
      fetch_profile db user_id customer_id name = Some (age, previous_claims) /\
      py_float claim_amount = Ok ca /\
      py_int age = Ok a /\
      py_int previous_claims = Ok pc /\
      p = scored ca a pc diagnosis hospital_type /\
      v = verdict p /\
      insert_prediction db
        (audit_row user_id customer_id name claim_amount age diagnosis
           hospital_type previous_claims p) = Ok db').
Proof.
  intros H.
  destruct (fetch_profile db user_id customer_id name) as [[age prev] | ] eqn:Hf.
  - right. exists age, prev.
    destruct (py_float claim_amount) as [ca | e] eqn:Hc.
    2:{ unfold predict_fraud in H. rewrite Hf, Hc in H. discriminate H. }
    destruct (py_int age) as [a | e] eqn:Ha.
    2:{ unfold predict_fraud in H. rewrite Hf, Hc in H. cbn [bind] in H.
        rewrite Ha in H. discriminate H. }
    destruct (py_int prev) as [pc | e] eqn:Hp.
    2:{ unfold predict_fraud in H. rewrite Hf, Hc in H. cbn [bind] in H.
        rewrite Ha in H. cbn [bind] in H. rewrite Hp in H. discriminate H. }
    exists ca, a, pc.
    rewrite (predict_fraud_found _ _ _ _ _ _ _ _ _ _ _ _ Hf Hc Ha Hp) in H.
    destruct (insert_prediction _ _) as [db1 | e] eqn:Hi; [ | discriminate H ].
    injection H as Hv Hpp Hdb. subst v p db1.
    repeat split; try reflexivity; assumption.
  - left. rewrite (predict_fraud_missing _ _ _ _ _ _ _ Hf) in H.
    injection H as Hv Hp Hdb. subst. repeat split; reflexivity.
Qed.

Lemma position_none (y : string) (l : list string) (i : Z) :
  str_in y l = false -> position y l i = None.
Proof.
  revert i. induction l as [ | c l IH]; intros i Hn; cbn in *.
  - reflexivity.
  - destruct (String.eqb y c); [ discriminate Hn | apply IH, Hn ].
Qed.

(** Unguarded, the lookup of an unseen label raises: [KeyError] when the
    column has no encoder, [ValueError] from [transform] otherwise. *)
Lemma lookup_unseen (column label : string) :
  seen column label = false ->
  is_ok (le <- getitem label_encoders column ;; transform le label) = false.
Proof.
  unfold seen.
  destruct (getitem label_encoders column) as [le | e]; cbn [bind is_ok].
  - intros Hn. unfold transform. rewrite (position_none _ _ _ Hn). reflexivity.
  - reflexivity.
Qed.

(** The guarded lookup of [preprocess_input] falls back to 0 on an
    unseen label. *)
Lemma encode_unseen (column label : string) :
  seen column label = false ->
  try_except (le <- getitem label_encoders column ;; transform le label) 0 = 0.
Proof.
  unfold seen.
  destruct (getitem label_encoders column) as [le | e]; cbn [bind try_except].
  - intros Hn. unfold transform. rewrite (position_none _ _ _ Hn). reflexivity.
  - reflexivity.
Qed.

Lemma verdict_is_verdict (p : number) : is_verdict (verdict p).
Proof. unfold verdict, is_verdict. destruct (num_gt p _); auto. Qed.



Lemma insert_prediction_ok (db : database) (row : prediction_row) :
  bindable (pr_claim_amount row) = true ->
  bindable (pr_age row) = true ->
  bindable (pr_previous_claims row) = true ->
  writable db = true ->
  insert_prediction db row = Ok (appended db row).
Proof.
  intros H1 H2 H3 H4. unfold insert_prediction, appended.
  rewrite H1, H2, H3, H4. reflexivity.
Qed.

Lemma insert_prediction_frame (db db' : database) (row : prediction_row) :
  insert_prediction db row = Ok db' ->
  customer_data db' = customer_data db /\
  writable db' = writable db /\
  predictions db' = predictions db ++ [row].
Proof.
  unfold insert_prediction.
  destruct (negb _); [ discriminate | ].
  destruct (writable db) eqn:Hw; [ | discriminate ].
  intros [= <-]. cbn. auto.
Qed.

Lemma insert_prediction_same (db1 db2 : database) (row : prediction_row) :
  writable db1 = writable db2 ->
  match insert_prediction db1 row, insert_prediction db2 row with
  | Ok _, Ok _ => True
  | Raise e1, Raise e2 => e1 = e2
  | _, _ => False
  end.
Proof.
  intros Hw. unfold insert_prediction. rewrite Hw.
  destruct (negb _); [ reflexivity | ].
  destruct (writable db2); [ exact I | reflexivity ].
Qed.

Lemma fetch_profile_ext (db1 db2 : database) (user_id : Z)
    (customer_id name : string) :
  customer_data db1 = customer_data db2 ->
  fetch_profile db1 user_id customer_id name
  = fetch_profile db2 user_id customer_id name.
Proof. intros H. unfold fetch_profile. rewrite H. reflexivity. Qed.

(** [predict_fraud] leaves [customer_data] and the connection alone and
    appends at most one row to [predictions]. *)
Lemma predict_fraud_frame (db : database) (user_id : Z)
    (customer_id name diagnosis hospital_type : string) (claim_amount : pyval) :
  let db' := snd (predict_fraud db user_id customer_id name diagnosis
                    hospital_type claim_amount) in
  customer_data db' = customer_data db /\
  writable db' = writable db /\
  (predictions db' = predictions db \/
   exists row, predictions db' = predictions db ++ [row]).
Proof.
  cbv zeta. unfold predict_fraud.
  destruct (fetch_profile db user_id customer_id name) as [[age prev] | ];
    [ | cbn; auto ].
  destruct (py_float claim_amount) as [ca | e]; cbn [bind]; [ | cbn; auto ].
  destruct (py_int age) as [a | e]; cbn [bind]; [ | cbn; auto ].
  destruct (py_int prev) as [pc | e]; cbn [bind]; [ | cbn; auto ].
  destruct (insert_prediction db _) as [db1 | e] eqn:Hi; [ | cbn; auto ].
  apply insert_prediction_frame in Hi. destruct Hi as (H1 & H2 & H3).
  cbn [snd]. repeat split; try assumption. right. eexists. exact H3.
Qed.

Lemma apply_rules_all (p ca : float) (pc : Z) (diagnosis hospital_type : string) :
  high_amount ca = true ->
  frequent_claims pc = true ->
  suspicious_diagnosis diagnosis = true ->
  private_hospital hospital_type = true ->
  apply_rules p ca pc diagnosis hospital_type =
  (p + high_amount_adjustment + frequent_claims_adjustment
     + suspicious_diagnosis_adjustment + private_hospital_adjustment)%float.
Proof.
  unfold high_amount, frequent_claims, suspicious_diagnosis, private_hospital,
    apply_rules.
  intros -> -> -> ->. reflexivity.
Qed.

(** ** The claims *)

(** C1 (amended). For a scoring call with claim amount 350000, previous
    claims 6, diagnosis "Cancer", hospital type "Private" and a base model
    probability of 0.05, all four rules fire; the adjustments 0.10, 0.15,
    0.20 and 0.10, which sum to 0.55, are added in turn to 0.05, the
    returned probability is the binary64 value 0.6, the verdict is "Fraud",
    and that result is the row appended to [predictions]. *)
Theorem all_rules_example (db : database) (user_id : Z)
    (customer_id name : string) (age : pyval) (a : Z) :
  fetch_profile db user_id customer_id name = Some (age, PyInt 6) ->
  py_int age = Ok a ->
  model (preprocess_input 350000 a "Cancer" "Private" 6) = Some 0.05%float ->
  bindable age = true ->
  writable db = true ->
  (high_amount 350000 = true /\ frequent_claims 6 = true /\
   suspicious_diagnosis "Cancer" = true /\ private_hospital "Private" = true) /\
  (0.10 + 0.15 + 0.20 + 0.10 = 0.55)%float /\
  (0.05 + 0.10 + 0.15 + 0.20 + 0.10 = 0.6)%float /\
  predict_fraud db user_id customer_id name "Cancer" "Private" (PyFloat 350000)
  = (Returned "Fraud" (Float 0.6),
     appended db
       {| pr_user_id := user_id;
          pr_customer_id := customer_id;
          pr_name := name;
          pr_claim_amount := PyFloat 350000;
          pr_age := age;
          pr_diagnosis := "Cancer";
          pr_hospital_type := "Private";
          pr_previous_claims := PyInt 6;
          pr_prediction := "Fraud";
          pr_probability := Float 0.6 |}).
Proof.
  intros Hf Ha Hm Hb Hw.
  split; [ repeat split; vm_compute; reflexivity | ].
  split; [ vm_compute; reflexivity | ].
  split; [ vm_compute; reflexivity | ].
  rewrite (predict_fraud_found db user_id customer_id name "Cancer" "Private"
             (PyFloat 350000) age (PyInt 6) 350000%float a 6 Hf eq_refl Ha eq_refl).
  assert (Hs : scored 350000 a 6 "Cancer" "Private" = Float 0.6).
  { unfold scored, base_probability. rewrite Hm. vm_compute. reflexivity. }
  rewrite Hs.
  rewrite insert_prediction_ok; try assumption; reflexivity.
Qed.

(** C2. Whenever [predict_fraud] returns, the probability it returns lies
    in [0, 1], whatever the model produced and whichever rules fired; and
    when the model produced 0.9 and all four rules fire, the sum 1.45 is
    clamped and the returned probability is the integer 1, i.e. 1.0. *)
Theorem probability_in_unit_interval (db db' : database) (user_id : Z)
    (customer_id name diagnosis hospital_type : string)
    (claim_amount : pyval) (v : string) (p : number) :
  predict_fraud db user_id customer_id name diagnosis hospital_type claim_amount
    = (Returned v p, db') ->
  (num_le (Int 0) p = true /\ num_le p (Int 1) = true) /\
  (forall age previous_claims ca a pc,
      fetch_profile db user_id customer_id name = Some (age, previous_claims) ->
      py_float claim_amount = Ok ca ->
      py_int age = Ok a ->
      py_int previous_claims = Ok pc ->
      model (preprocess_input ca a diagnosis hospital_type pc) = Some 0.9%float ->
      high_amount ca = true ->
      frequent_claims pc = true ->
      suspicious_diagnosis diagnosis = true ->
      private_hospital hospital_type = true ->
      apply_rules 0.9 ca pc diagnosis hospital_type = 1.45%float /\
      p = Int 1 /\ as_float p = 1%float).
Proof.
  intros H. split.
  - apply predict_fraud_returned in H.
    destruct H as [(_ & _ & -> & _) | (age & prev & ca & a & pc & _ & _ & _ & _ & -> & _)].
    + split; reflexivity.
    + apply clamp_unit.
  - intros age prev ca a pc Hf Hc Ha Hp Hm R1 R2 R3 R4.
    rewrite (predict_fraud_found _ _ _ _ _ _ _ _ _ _ _ _ Hf Hc Ha Hp) in H.
    assert (Hr : apply_rules 0.9 ca pc diagnosis hospital_type = 1.45%float).
    { rewrite apply_rules_all by assumption. vm_compute. reflexivity. }
    assert (Hs : scored ca a pc diagnosis hospital_type = Int 1).
    { unfold scored, base_probability. rewrite Hm, Hr. vm_compute. reflexivity. }
    rewrite Hs in H.
    destruct (insert_prediction db _); [ | discriminate H ].
    injection H as _ <- _.
    split; [ exact Hr | split; [ reflexivity | apply float_of_Z_1 ] ].
Qed.

(** C3. For every call of [predict_fraud] that found a profile and
    returned, the verdict is "Fraud" exactly when the clamped probability
    is strictly greater than 0.35 and "Legitimate" otherwise; a clamped
    probability equal to 0.35 gives "Legitimate". *)
Theorem verdict_threshold (db db' : database) (user_id : Z)
    (customer_id name diagnosis hospital_type : string)
    (claim_amount : pyval) (v : string) (p : number) :
  fetch_profile db user_id customer_id name <> None ->
  predict_fraud db user_id customer_id name diagnosis hospital_type claim_amount
    = (Returned v p, db') ->
  (v = "Fraud" <-> num_gt p (Float 0.35) = true) /\
  (v = "Legitimate" <-> num_gt p (Float 0.35) = false) /\
  (p = Float 0.35 -> v = "Legitimate").
Proof.
  intros Hsome H. apply predict_fraud_returned in H.
  destruct H as [(Hnone & _) | (age & prev & ca & a & pc & _ & _ & _ & _ & _ & -> & _)].
  - contradiction.
  - assert (Hiff : (verdict p = "Fraud" <-> num_gt p (Float 0.35) = true) /\
                   (verdict p = "Legitimate" <-> num_gt p (Float 0.35) = false)).
    { unfold verdict. destruct (num_gt p (Float 0.35)); split; split;
        intros E; try reflexivity; discriminate E. }
    destruct Hiff as [H1 H2]. repeat split; try apply H1; try apply H2.
    intros ->. apply H2. vm_compute. reflexivity.
Qed.

(** C4. When no row of [customer_data] matches the user scope, customer
    identifier and customer name, [predict_fraud] returns the
    profile-not-found outcome with probability 0.0, which is neither
    verdict, and leaves the store as it was: [predictions] is unchanged. *)
Theorem missing_profile_not_scored (db : database) (user_id : Z)
    (customer_id name diagnosis hospital_type : string) (claim_amount : pyval) :
  no_history db user_id customer_id name ->
  predict_fraud db user_id customer_id name diagnosis hospital_type claim_amount
    = (Returned "Error: Customer profile not found" (Float 0%float), db) /\
  ~ is_verdict "Error: Customer profile not found" /\
  predictions (snd (predict_fraud db user_id customer_id name diagnosis
                      hospital_type claim_amount)) = predictions db.
Proof.
  intros Hn. apply fetch_profile_none in Hn.
  rewrite (predict_fraud_missing _ _ _ _ _ _ _ Hn).
  repeat split. intros [E | E]; discriminate E.
Qed.

(** C5. The outcome of [predict_fraud] is a function of the claim fields,
    the fetched profile, the model, the encoders and the rules alone: two
    stores that yield the same profile (and agree on accepting writes)
    give the same verdict and probability, in particular the store a
    first call leaves behind gives the same outcome again; and a call
    changes nothing but [predictions], to which it appends at most one
    row. *)
Theorem predict_fraud_deterministic (db1 db2 : database) (user_id : Z)
    (customer_id name diagnosis hospital_type : string) (claim_amount : pyval) :
  fetch_profile db1 user_id customer_id name
    = fetch_profile db2 user_id customer_id name ->
  writable db1 = writable db2 ->
  fst (predict_fraud db1 user_id customer_id name diagnosis hospital_type
         claim_amount)
  = fst (predict_fraud db2 user_id customer_id name diagnosis hospital_type
           claim_amount) /\
  fst (predict_fraud
         (snd (predict_fraud db1 user_id customer_id name diagnosis
                 hospital_type claim_amount))
         user_id customer_id name diagnosis hospital_type claim_amount)
  = fst (predict_fraud db1 user_id customer_id name diagnosis hospital_type
           claim_amount) /\
  customer_data (snd (predict_fraud db1 user_id customer_id name diagnosis
                        hospital_type claim_amount)) = customer_data db1 /\
  (predictions (snd (predict_fraud db1 user_id customer_id name diagnosis
                       hospital_type claim_amount)) = predictions db1 \/
   exists row,
     predictions (snd (predict_fraud db1 user_id customer_id name diagnosis
                         hospital_type claim_amount)) = predictions db1 ++ [row]).
Proof.
  assert (Hgen : forall dba dbb,
             fetch_profile dba user_id customer_id name
               = fetch_profile dbb user_id customer_id name ->
             writable dba = writable dbb ->
             fst (predict_fraud dba user_id customer_id name diagnosis
                    hospital_type claim_amount)
             = fst (predict_fraud dbb user_id customer_id name diagnosis
                      hospital_type claim_amount)).
  { intros dba dbb Hf Hw. unfold predict_fraud. rewrite Hf.
    destruct (fetch_profile dbb user_id customer_id name) as [[age prev] | ];
      [ | reflexivity ].
    destruct (py_float claim_amount) as [ca | e]; cbn [bind]; [ | reflexivity ].
    destruct (py_int age) as [a | e]; cbn [bind]; [ | reflexivity ].
    destruct (py_int prev) as [pc | e]; cbn [bind]; [ | reflexivity ].
    match goal with
    | |- fst (match insert_prediction _ ?r with _ => _ end) = _ =>
        pose proof (insert_prediction_same dba dbb r Hw) as Hs;
        destruct (insert_prediction dba r), (insert_prediction dbb r)
    end; cbn in *; try contradiction; congruence. }
  intros Hf Hw.
  destruct (predict_fraud_frame db1 user_id customer_id name diagnosis
              hospital_type claim_amount) as (Hc & Hwr & Hp).
  repeat split.
  - apply Hgen; assumption.
  - apply Hgen; [ apply fetch_profile_ext; exact Hc | exact Hwr ].
  - exact Hc.
  - exact Hp.
Qed.

(** C6. For a diagnosis or hospital type that the fitted encoder of its
    column has not seen, the encoder's lookup raises, the error is caught
    and the label is encoded as the fallback code 0; the scoring call goes
    on: with a profile on file, numeric fields that coerce and a store that
    accepts the row, [predict_fraud] returns a verdict and records it. *)
Theorem unseen_category_falls_back (diagnosis hospital_type : string) :
  seen "Diagnosis" diagnosis = false \/
  seen "HospitalType" hospital_type = false ->
  (forall ca a pc,
      (seen "Diagnosis" diagnosis = false ->
       is_ok (le <- getitem label_encoders "Diagnosis" ;; transform le diagnosis)
         = false /\
       Diagnosis (preprocess_input ca a diagnosis hospital_type pc) = 0) /\
      (seen "HospitalType" hospital_type = false ->
       is_ok (le <- getitem label_encoders "HospitalType" ;;
              transform le hospital_type) = false /\
       HospitalType (preprocess_input ca a diagnosis hospital_type pc) = 0)) /\
  (forall db user_id customer_id name claim_amount age previous_claims ca a pc,
      fetch_profile db user_id customer_id name = Some (age, previous_claims) ->
      py_float claim_amount = Ok ca ->
      py_int age = Ok a ->
      py_int previous_claims = Ok pc ->
      bindable claim_amount = true ->
      bindable age = true ->
      bindable previous_claims = true ->
      writable db = true ->
      exists v p,
        is_verdict v /\
        predict_fraud db user_id customer_id name diagnosis hospital_type
          claim_amount
        = (Returned v p,
           appended db
             (audit_row user_id customer_id name claim_amount age diagnosis
                hospital_type previous_claims p))).
Proof.
  intros _. split.
  - intros ca a pc. unfold preprocess_input. cbn [Diagnosis HospitalType].
    split; intros Hu; (split; [ apply lookup_unseen | apply encode_unseen ]);
      exact Hu.
  - intros db user_id customer_id name claim_amount age prev ca a pc
      Hf Hc Ha Hp B1 B2 B3 Hw.
    exists (verdict (scored ca a pc diagnosis hospital_type)),
      (scored ca a pc diagnosis hospital_type).
    split; [ apply verdict_is_verdict | ].
    rewrite (predict_fraud_found _ _ _ _ _ _ _ _ _ _ _ _ Hf Hc Ha Hp).
    rewrite insert_prediction_ok; try assumption. reflexivity.
Qed.

(** C7. When the model's inference call fails, [predict_fraud] raises
    nothing on that account: the base probability is 0.0, the rules, the
    clamp and the threshold are applied to it, and the result is handed
    to the store; if the store accepts the row, the verdict is returned
    and recorded. *)
Theorem model_failure_defaults_to_zero (db : database) (user_id : Z)
    (customer_id name diagnosis hospital_type : string)
    (claim_amount age previous_claims : pyval) (ca : float) (a pc : Z) :
  fetch_profile db user_id customer_id name = Some (age, previous_claims) ->
  py_float claim_amount = Ok ca ->
  py_int age = Ok a ->
  py_int previous_claims = Ok pc ->
  model (preprocess_input ca a diagnosis hospital_type pc) = None ->
  base_probability (preprocess_input ca a diagnosis hospital_type pc) = 0%float /\
  predict_fraud db user_id customer_id name diagnosis hospital_type claim_amount
  = match insert_prediction db
            (audit_row user_id customer_id name claim_amount age diagnosis
               hospital_type previous_claims
               (clamp (apply_rules 0 ca pc diagnosis hospital_type))) with
    | Ok db' =>
        (Returned (verdict (clamp (apply_rules 0 ca pc diagnosis hospital_type)))
           (clamp (apply_rules 0 ca pc diagnosis hospital_type)), db')
    | Raise e => (Raised e, db)
    end /\
  (bindable claim_amount = true ->
   bindable age = true ->
   bindable previous_claims = true ->
   writable db = true ->
   is_verdict (verdict (clamp (apply_rules 0 ca pc diagnosis hospital_type))) /\
   predict_fraud db user_id customer_id name diagnosis hospital_type claim_amount
   = (Returned (verdict (clamp (apply_rules 0 ca pc diagnosis hospital_type)))
        (clamp (apply_rules 0 ca pc diagnosis hospital_type)),
      appended db
        (audit_row user_id customer_id name claim_amount age diagnosis
           hospital_type previous_claims
           (clamp (apply_rules 0 ca pc diagnosis hospital_type))))).
Proof.
  intros Hf Hc Ha Hp Hm.
  assert (Hb : base_probability (preprocess_input ca a diagnosis hospital_type pc)
               = 0%float).
  { unfold base_probability. rewrite Hm. reflexivity. }
  assert (Hs : scored ca a pc diagnosis hospital_type
               = clamp (apply_rules 0 ca pc diagnosis hospital_type)).
  { unfold scored. rewrite Hb. reflexivity. }
  rewrite (predict_fraud_found _ _ _ _ _ _ _ _ _ _ _ _ Hf Hc Ha Hp), Hs.
  split; [ exact Hb | ]. split; [ reflexivity | ].
  intros B1 B2 B3 Hw. split; [ apply verdict_is_verdict | ].
  rewrite insert_prediction_ok; try assumption. reflexivity.
Qed.



Lemma adjustments_positive :
  positive_finite high_amount_adjustment = true /\
  positive_finite frequent_claims_adjustment = true /\
  positive_finite suspicious_diagnosis_adjustment = true /\
  positive_finite private_hospital_adjustment = true.
Proof. repeat split; vm_compute; reflexivity. Qed.

Lemma rule_step (b : bool) (x d : float) :
  positive_finite d = true -> is_nan x = false ->
  PrimFloat.leb x (if b then (x + d)%float else x) = true.
Proof.
  destruct b; [ apply float_add_increases | intros _; apply float_leb_refl ].
Qed.

(** The rules never lower a probability that is a number. *)
Lemma apply_rules_increases (p ca : float) (pc : Z)
    (diagnosis hospital_type : string) :
  is_nan p = false ->
  PrimFloat.leb p (apply_rules p ca pc diagnosis hospital_type) = true.
Proof.
  intros Hp. destruct adjustments_positive as (A1 & A2 & A3 & A4).
  unfold apply_rules. cbv zeta.
  set (p1 := if num_gt (Float ca) (Int high_amount_threshold)
             then (p + high_amount_adjustment)%float else p).
  set (p2 := if pc >? frequent_claims_threshold
             then (p1 + frequent_claims_adjustment)%float else p1).
  set (p3 := if str_in (lower diagnosis) suspicious_diagnosis_list
             then (p2 + suspicious_diagnosis_adjustment)%float else p2).
  assert (H1 : PrimFloat.leb p p1 = true) by (apply rule_step; assumption).
  assert (N1 : is_nan p1 = false) by (apply (float_leb_not_nan _ _ H1)).
  assert (H2 : PrimFloat.leb p1 p2 = true) by (apply rule_step; assumption).
  assert (N2 : is_nan p2 = false) by (apply (float_leb_not_nan _ _ H2)).
  assert (H3 : PrimFloat.leb p2 p3 = true) by (apply rule_step; assumption).
  assert (N3 : is_nan p3 = false) by (apply (float_leb_not_nan _ _ H3)).
  apply float_leb_trans with p3; [ | apply rule_step; assumption ].
  apply float_leb_trans with p2; [ | assumption ].
  apply float_leb_trans with p1; assumption.
Qed.

(** They keep a NaN a NaN. *)
Lemma apply_rules_nan (p ca : float) (pc : Z) (diagnosis hospital_type : string) :
  is_nan p = true ->
  is_nan (apply_rules p ca pc diagnosis hospital_type) = true.
Proof.
  intros Hp. unfold apply_rules. cbv zeta.
  destruct (num_gt _ _), (pc >? _), (str_in _ _), (String.eqb _ _);
    repeat apply float_nan_add; assumption.
Qed.

(** The clamp of the adjusted probability is at least [min(1, base)]. *)
Lemma clamp_above_base (base q : float) :
  (is_nan base = true -> is_nan q = true) ->
  (is_nan base = false -> PrimFloat.leb base q = true) ->
  num_le (py_min (Int 1) (Float base)) (clamp q) = true.
Proof.
  intros Hnan Hle.
  assert (Hmin : py_min (Int 1) (Float base)
                 = if PrimFloat.ltb base 1 then Float base else Int 1).
  { unfold py_min, num_lt. cbn [as_float]. rewrite float_of_Z_1. reflexivity. }
  rewrite Hmin.
  destruct (is_nan base) eqn:Hb.
  - (* the model produced a NaN: both sides are the integer 1 *)
    rewrite (float_nan_ltb base 1 Hb).
    destruct (clamp_spec q) as [(_ & ->) | [(H1 & _) | (H1 & _)]].
    + reflexivity.
    + rewrite (float_nan_ltb q 1 (Hnan eq_refl)) in H1. discriminate H1.
    + rewrite (float_nan_ltb q 1 (Hnan eq_refl)) in H1. discriminate H1.
  - specialize (Hle eq_refl).
    destruct (clamp_spec q) as [(H1 & ->) | [(H1 & H0 & ->) | (H1 & H0 & ->)]].
    + destruct (PrimFloat.ltb base 1) eqn:Hb1; [ | reflexivity ].
      unfold num_le. cbn [as_float]. rewrite float_of_Z_1.
      apply float_ltb_leb. exact Hb1.
    + rewrite (float_leb_ltb_trans base q 1 Hle H1).
      unfold num_le. cbn [as_float]. exact Hle.
    + rewrite (float_leb_ltb_trans base q 1 Hle H1).
      unfold num_le. cbn [as_float]. rewrite float_of_Z_0.
      destruct (float_ltb_not_nan q 1 H1) as [Nq _].
      destruct (float_ltb_or_leb 0 q eq_refl Nq) as [Hc | Hc]; [ congruence | ].
      apply float_leb_trans with q; assumption.
Qed.

(** C10. Every rule delta is non-negative, and for every call of
    [predict_fraud] that found a profile and returned, the clamped
    probability it returns is at least [min(1, base)], where [base] is the
    model's output (0.0 if the model failed): whichever rules fire, the
    rules only raise or keep the score. *)
Theorem rules_never_lower (db db' : database) (user_id : Z)
    (customer_id name diagnosis hospital_type : string)
    (claim_amount age previous_claims : pyval) (ca : float) (a pc : Z)
    (v : string) (p : number) :
  fetch_profile db user_id customer_id name = Some (age, previous_claims) ->
  py_float claim_amount = Ok ca ->
  py_int age = Ok a ->
  py_int previous_claims = Ok pc ->
  predict_fraud db user_id customer_id name diagnosis hospital_type claim_amount
    = (Returned v p, db') ->
  (PrimFloat.leb 0 high_amount_adjustment = true /\
   PrimFloat.leb 0 frequent_claims_adjustment = true /\
   PrimFloat.leb 0 suspicious_diagnosis_adjustment = true /\
   PrimFloat.leb 0 private_hospital_adjustment = true) /\
  (is_nan (base_probability (preprocess_input ca a diagnosis hospital_type pc))
     = false ->
   PrimFloat.leb
     (base_probability (preprocess_input ca a diagnosis hospital_type pc))
     (apply_rules
        (base_probability (preprocess_input ca a diagnosis hospital_type pc))
        ca pc diagnosis hospital_type) = true) /\
  num_le
    (py_min (Int 1)
       (Float (base_probability
                 (preprocess_input ca a diagnosis hospital_type pc))))
    p = true.
Proof.
  intros Hf Hc Ha Hp H.
  split; [ repeat split; vm_compute; reflexivity | ].
  split; [ apply apply_rules_increases | ].
  rewrite (predict_fraud_found _ _ _ _ _ _ _ _ _ _ _ _ Hf Hc Ha Hp) in H.
  destruct (insert_prediction db _); [ | discriminate H ].
  assert (Ep : p = scored ca a pc diagnosis hospital_type).
  { apply (f_equal (fun r => match fst r with
                             | Returned _ x => x
                             | Raised _ => p
                             end)) in H.
    cbn in H. symmetry. exact H. }
  rewrite Ep. unfold scored. apply clamp_above_base.
  - apply apply_rules_nan.
  - apply apply_rules_increases.
Qed.

(** ** Further properties of the scoring code *)

Lemma str_ltb_irrefl (s : string) : String.ltb s s = false.
Proof.
  unfold String.ltb.
  assert (H : String.compare s s = Eq) by (apply String_as_OT.cmp_eq; reflexivity).
  rewrite H. reflexivity.
Qed.

Lemma str_ltb_asym (a b : string) :
  String.ltb a b = true -> String.ltb b a = false.
Proof.
  unfold String.ltb. rewrite (String.compare_antisym a b).
  destruct (String.compare b a); cbn; congruence.
Qed.

Lemma str_ltb_trans (a b c : string) :
  String.ltb a b = true -> String.ltb b c = true -> String.ltb a c = true.
Proof.
  unfold String.ltb. intros H1 H2.
  assert (L1 : String.compare a b = Lt) by (destruct (String.compare a b); congruence).
  assert (L2 : String.compare b c = Lt) by (destruct (String.compare b c); congruence).
  apply String_as_OT.cmp_lt in L1. apply String_as_OT.cmp_lt in L2.
  pose proof (String_as_OT.lt_trans _ _ _ L1 L2) as L.
  apply String_as_OT.cmp_lt in L. unfold String_as_OT.cmp in L. rewrite L.
  reflexivity.
Qed.

(** "Not later than" is transitive. *)
Lemma str_not_ltb_trans (a b c : string) :
  String.ltb a b = false -> String.ltb b c = false -> String.ltb a c = false.
Proof.
  intros H1 H2. destruct (String.ltb a c) eqn:Hac; [ exfalso | reflexivity ].
  destruct (String.compare b a) eqn:Hba.
  - apply String.compare_eq_iff in Hba. subst b. congruence.
  - assert (Hb : String.ltb b a = true) by (unfold String.ltb; rewrite Hba; reflexivity).
    rewrite (str_ltb_trans b a c Hb Hac) in H2. discriminate H2.
  - unfold String.ltb in H1. rewrite (String.compare_antisym a b), Hba in H1.
    discriminate H1.
Qed.

(** [latest] picks a row of the list whose date no other row exceeds. *)
Lemma latest_spec (rows : list customer_row) (r : customer_row) :
  latest rows = Some r ->
  In r rows /\
  forall r', In r' rows -> String.ltb (cd_date r) (cd_date r') = false.
Proof.
  revert r. induction rows as [ | x rows IH]; intros r H; cbn in H.
  - discriminate H.
  - destruct (latest rows) as [r0 | ] eqn:Hl.
    + destruct (IH r0 eq_refl) as [Hin Hmax].
      destruct (String.ltb (cd_date x) (cd_date r0)) eqn:Hx; injection H as <-.
      * split; [ right; exact Hin | ].
        intros r' [<- | Hr']; [ apply str_ltb_asym; exact Hx | apply Hmax; exact Hr' ].
      * split; [ left; reflexivity | ].
        intros r' [<- | Hr']; [ apply str_ltb_irrefl | ].
        apply str_not_ltb_trans with (cd_date r0); [ exact Hx | apply Hmax; exact Hr' ].
    + injection H as <-. apply latest_none in Hl. subst rows.
      split; [ left; reflexivity | ].
      intros r' [<- | []]. apply str_ltb_irrefl.
Qed.

(** X1. The profile [predict_fraud] works with is taken from a row of
    [customer_data] that matches the user, the customer identifier and the
    name, and no matching row has a later date, dates being compared as
    text. *)
Theorem profile_is_most_recent (db : database) (user_id : Z)
    (customer_id name : string) (age previous_claims : pyval) :
  fetch_profile db user_id customer_id name = Some (age, previous_claims) ->
  exists r,
    In r (customer_data db) /\
    matches user_id customer_id name r = true /\
    cd_age r = age /\
    cd_previous_claims r = previous_claims /\
    forall r',
      In r' (customer_data db) ->
      matches user_id customer_id name r' = true ->
      String.ltb (cd_date r) (cd_date r') = false.
Proof.
  unfold fetch_profile. intros H.
  destruct (latest (filter (matches user_id customer_id name) (customer_data db)))
    as [r | ] eqn:Hl; [ | discriminate H ].
  injection H as <- <-.
  destruct (latest_spec _ _ Hl) as [Hin Hmax].
  apply filter_In in Hin. destruct Hin as [Hin Hm].
  exists r. repeat split; try assumption.
  intros r' Hr' Hm'. apply Hmax. apply filter_In. split; assumption.
Qed.



Lemma position_spec (y : string) (l : list string) (i : Z) :
  str_in y l = true ->
  exists c,
    position y l i = Some c /\
    i <= c < i + Z.of_nat (List.length l) /\
    nth_error l (Z.to_nat (c - i)) = Some y.
Proof.
  revert i. induction l as [ | x l IH]; intros i Hin; cbn in Hin.
  - discriminate Hin.
  - cbn [position]. destruct (String.eqb y x) eqn:E.
    + apply String.eqb_eq in E. subst x. exists i.
      split; [ reflexivity | ]. split; [ cbn [List.length]; lia | ].
      replace (i - i) with 0 by lia. reflexivity.
    + cbn in Hin. destruct (IH (i + 1) Hin) as (c & Hc & Hr & Hn).
      exists c. split; [ exact Hc | ]. split; [ cbn [List.length]; lia | ].
      replace (Z.to_nat (c - i)) with (S (Z.to_nat (c - (i + 1)))) by lia.
      exact Hn.
Qed.

(** The code [preprocess_input] gives a label that the encoder of its
    column has seen. *)
Lemma encode_seen (column label : string) (le : LabelEncoder) :
  getitem label_encoders column = Ok le ->
  seen column label = true ->
  0 <= try_except (le' <- getitem label_encoders column ;; transform le' label) 0
    < Z.of_nat (List.length (classes_ le)) /\
  nth_error (classes_ le)
    (Z.to_nat
       (try_except (le' <- getitem label_encoders column ;; transform le' label) 0))
  = Some label.
Proof.
  intros Hg Hs. unfold seen in Hs. rewrite Hg in *. cbn [bind].
  destruct (position_spec label (classes_ le) 0 Hs) as (c & Hc & Hr & Hn).
  unfold transform. rewrite Hc. cbn [try_except].
  replace (c - 0) with c in Hn by lia. split; [ lia | exact Hn ].
Qed.

(** X3. The code of a diagnosis or hospital type that the fitted encoder
    has seen is its position among the encoder's classes: it lies within
    the classes and looking it up there gives the label back, so two seen
    labels with the same code are the same label. *)
Theorem seen_labels_round_trip (ca : float) (a pc : Z)
    (diagnosis hospital_type : string) (led leh : LabelEncoder) :
  getitem label_encoders "Diagnosis" = Ok led ->
  getitem label_encoders "HospitalType" = Ok leh ->
  (seen "Diagnosis" diagnosis = true ->
   0 <= Diagnosis (preprocess_input ca a diagnosis hospital_type pc)
     < Z.of_nat (List.length (classes_ led)) /\
   nth_error (classes_ led)
     (Z.to_nat (Diagnosis (preprocess_input ca a diagnosis hospital_type pc)))
   = Some diagnosis /\
   forall diagnosis',
     seen "Diagnosis" diagnosis' = true ->
     Diagnosis (preprocess_input ca a diagnosis' hospital_type pc)
     = Diagnosis (preprocess_input ca a diagnosis hospital_type pc) ->
     diagnosis' = diagnosis) /\
  (seen "HospitalType" hospital_type = true ->
   0 <= HospitalType (preprocess_input ca a diagnosis hospital_type pc)
     < Z.of_nat (List.length (classes_ leh)) /\
   nth_error (classes_ leh)
     (Z.to_nat (HospitalType (preprocess_input ca a diagnosis hospital_type pc)))
   = Some hospital_type /\
   forall hospital_type',
     seen "HospitalType" hospital_type' = true ->
     HospitalType (preprocess_input ca a diagnosis hospital_type' pc)
     = HospitalType (preprocess_input ca a diagnosis hospital_type pc) ->
     hospital_type' = hospital_type).
Proof.
  intros Hd Hh. unfold preprocess_input. cbn [Diagnosis HospitalType]. split.
  - intros Hs. destruct (encode_seen _ _ _ Hd Hs) as [Hr Hn].
    split; [ exact Hr | ]. split; [ exact Hn | ].
    intros d' Hs' E. destruct (encode_seen _ _ _ Hd Hs') as [_ Hn'].
    rewrite E, Hn in Hn'. congruence.
  - intros Hs. destruct (encode_seen _ _ _ Hh Hs) as [Hr Hn].
    split; [ exact Hr | ]. split; [ exact Hn | ].
    intros h' Hs' E. destruct (encode_seen _ _ _ Hh Hs') as [_ Hn'].
    rewrite E, Hn in Hn'. congruence.
Qed.

(** X4. A diagnosis the encoder has not seen is handed to the model with
    the features of the encoder's first class: the frame built for it is
    the frame built for that class, so the model's base probability is the
    same for both. *)
Theorem unseen_diagnosis_scored_as_first_class (ca : float) (a pc : Z)
    (diagnosis hospital_type first : string) (others : list string)
    (led : LabelEncoder) :
  getitem label_encoders "Diagnosis" = Ok led ->
  classes_ led = first :: others ->
  seen "Diagnosis" diagnosis = false ->
  preprocess_input ca a diagnosis hospital_type pc
  = preprocess_input ca a first hospital_type pc /\
  base_probability (preprocess_input ca a diagnosis hospital_type pc)
  = base_probability (preprocess_input ca a first hospital_type pc).
Proof.
  intros Hg Hc Hs.
  assert (E : preprocess_input ca a diagnosis hospital_type pc
              = preprocess_input ca a first hospital_type pc).
  { unfold preprocess_input. rewrite (encode_unseen _ _ Hs).
    rewrite Hg. cbn [bind]. unfold transform. rewrite Hc. cbn [position].
    rewrite String.eqb_refl. reflexivity. }
  split; [ exact E | rewrite E; reflexivity ].
Qed.

(** X5. On a base probability of 0.0, which is what a failed model call
    leaves, the verdict is "Fraud" exactly when the suspicious-diagnosis
    rule fires together with at least two of the other three rules. *)
Theorem verdict_without_model (ca : float) (a pc : Z)
    (diagnosis hospital_type : string) :
  base_probability (preprocess_input ca a diagnosis hospital_type pc) = 0%float ->
  (verdict (scored ca a pc diagnosis hospital_type) = "Fraud" <->
   suspicious_diagnosis diagnosis
   && ((high_amount ca && frequent_claims pc)
       || (high_amount ca && private_hospital hospital_type)
       || (frequent_claims pc && private_hospital hospital_type)) = true).
Proof.
  intros Hb. unfold scored. rewrite Hb.
  unfold apply_rules, suspicious_diagnosis, high_amount, frequent_claims,
    private_hospital.
  destruct (num_gt (Float ca) (Int high_amount_threshold)),
    (pc >? frequent_claims_threshold),
    (str_in (lower diagnosis) suspicious_diagnosis_list),
    (String.eqb (lower hospital_type) "private");
    vm_compute; split; intros H; try reflexivity; discriminate H.
Qed.

(** ** Properties of the accounts *)

Lemma find_user_none (users : list user_row) (username : string) :
  find_user users username = None <->
  ~ In username (map us_username users).
Proof.
  unfold find_user. induction users as [ | x users IH]; cbn.
  - split; [ intros _ [] | reflexivity ].
  - destruct (String.eqb (us_username x) username) eqn:E.
    + apply String.eqb_eq in E. split; [ discriminate | ].
      intros H. exfalso. apply H. left. exact E.
    + apply String.eqb_neq in E. rewrite IH. split.
      * intros H [H1 | H1]; [ apply E; exact H1 | apply H; exact H1 ].
      * intros H H1. apply H. right. exact H1.
Qed.

Lemma find_user_some (users : list user_row) (username : string) (u : user_row) :
  find_user users username = Some u -> In u users /\ us_username u = username.
Proof.
  unfold find_user. intros H. apply find_some in H. destruct H as [Hin E].
  apply String.eqb_eq in E. split; assumption.
Qed.

(** A lookup that succeeds is not affected by rows added behind. *)
Lemma find_user_app (users more : list user_row) (username : string) :
  find_user (users ++ more) username =
  match find_user users username with
  | Some u => Some u
  | None => find_user more username
  end.
Proof.
  unfold find_user. induction users as [ | x users IH]; cbn.
  - reflexivity.
  - destruct (String.eqb (us_username x) username); [ reflexivity | exact IH ].
Qed.

Lemma next_user_id_above (users : list user_row) :
  1 <= next_user_id users /\
  forall u, In u users -> us_id u < next_user_id users.
Proof.
  unfold next_user_id. induction users as [ | x users [IH1 IH2]]; cbn [fold_right In].
  - split; [ lia | intros u [] ].
  - split; [ lia | ]. intros u [<- | Hu]; [ lia | ].
    specialize (IH2 u Hu). lia.
Qed.

(** Every way in which [signup_user] can return. *)
Lemma signup_user_cases (users users' : list user_row) (db : database)
    (u p : string) (msg : pane) :
  signup_user users db u p = Ok (users', msg) ->
  (users' = users /\ color msg = "red") \/
  (color msg = "green" /\
   is_empty (strip u) = false /\
   8 <= py_len (strip p) /\
   find_user users (strip u) = None /\
   users' = users ++ [ {| us_id := next_user_id users;
                          us_username := strip u;
                          us_password := hash_password (strip p) |} ]).
Proof.
  unfold signup_user.
  destruct (is_empty (strip u)) eqn:Eu; cbn [orb].
  { intros [= <- <-]. left. split; reflexivity. }
  destruct (is_empty (strip p)) eqn:Ep.
  { intros [= <- <-]. left. split; reflexivity. }
  destruct (py_len (strip p) <? 8) eqn:El.
  { intros [= <- <-]. left. split; reflexivity. }
  apply Z.ltb_ge in El.
  destruct (negb (writable db)); [ discriminate | ].
  destruct (find_user users (strip u)) as [x | ] eqn:Ef.
  { intros [= <- <-]. left. split; reflexivity. }
  intros [= <- <-]. right. repeat split; assumption.
Qed.

(** X6. Whenever [signup_user] returns, either the [users] table is as it
    was and the message is red, or the message is green and exactly one
    row was added: its username is the stripped input and is not blank,
    no earlier row had that username, the stripped password has at least
    8 characters, and what is stored is its hash. *)
Theorem signup_stores_only_valid_accounts (users users' : list user_row)
    (db : database) (signup_username signup_password : string) (msg : pane) :
  signup_user users db signup_username signup_password = Ok (users', msg) ->
  (users' = users /\ color msg = "red") \/
  (color msg = "green" /\
   strip signup_username <> "" /\
   8 <= py_len (strip signup_password) /\
   ~ In (strip signup_username) (map us_username users) /\
   users' = users ++ [ {| us_id := next_user_id users;
                          us_username := strip signup_username;
                          us_password := hash_password (strip signup_password) |} ]).
Proof.
  intros H. apply signup_user_cases in H.
  destruct H as [H | (Hc & Hu & Hl & Hf & ->)]; [ left; exact H | right ].
  repeat split; try assumption.
  - unfold is_empty in Hu. apply String.eqb_neq in Hu. exact Hu.
  - apply find_user_none. exact Hf.
Qed.

(** X7. [signup_user] keeps the usernames of the [users] table distinct,
    the ids distinct and the ids positive. *)
Theorem signup_keeps_accounts_distinct (users users' : list user_row)
    (db : database) (signup_username signup_password : string) (msg : pane) :
  signup_user users db signup_username signup_password = Ok (users', msg) ->
  NoDup (map us_username users) ->
  NoDup (map us_id users) ->
  (forall u, In u users -> 0 < us_id u) ->
  NoDup (map us_username users') /\
  NoDup (map us_id users') /\
  (forall u, In u users' -> 0 < us_id u).
Proof.
  intros H Hn Hi Hp. apply signup_user_cases in H.
  destruct H as [[-> _] | (_ & _ & _ & Hf & ->)]; [ auto | ].
  destruct (next_user_id_above users) as [H1 Habove].
  rewrite !map_app. cbn [map us_username us_id]. repeat split.
  - apply NoDup_app; [ exact Hn | repeat constructor; intros [] | ].
    intros x Hx [<- | []]. apply find_user_none in Hf. contradiction.
  - apply NoDup_app; [ exact Hi | repeat constructor; intros [] | ].
    intros x Hx [<- | []]. apply in_map_iff in Hx.
    destruct Hx as (u & Eu & Hu). specialize (Habove u Hu). lia.
  - intros u Hu. apply in_app_iff in Hu. destruct Hu as [Hu | [<- | []]].
    + apply Hp. exact Hu.
    + cbn [us_id]. lia.
Qed.

(** X8. After a signup that succeeded (green message), logging in with the
    same username and password entries succeeds and shows the dashboard. *)
Theorem signup_then_login (users users' : list user_row) (db : database)
    (main_area : page) (username password : string) (msg : pane) :
  signup_user users db username password = Ok (users', msg) ->
  color msg = "green" ->
  login_user users' main_area username password
  = ({| object := Markdown "### Login successful! ✅"; color := "green" |},
     DashboardPage).
Proof.
  intros H Hg. apply signup_user_cases in H.
  destruct H as [[_ Hr] | (_ & Hu & Hl & Hf & ->)].
  { rewrite Hr in Hg. discriminate Hg. }
  assert (Hp : is_empty (strip password) = false).
  { unfold is_empty. destruct (strip password); [ cbn in Hl; lia | reflexivity ]. }
  unfold login_user, authenticate. rewrite Hu, Hp. cbn [orb].
  rewrite find_user_app, Hf. unfold find_user. cbn [find us_username].
  rewrite String.eqb_refl. cbn [us_password us_id]. rewrite String.eqb_refl.
  reflexivity.
Qed.

(** X9. A signup never changes what [authenticate] answers for a username
    that was already registered: an existing account cannot be taken over
    or have its password replaced through the signup form. *)
Theorem signup_cannot_take_over (users users' : list user_row) (db : database)
    (signup_username signup_password : string) (msg : pane)
    (username password : string) :
  signup_user users db signup_username signup_password = Ok (users', msg) ->
  In username (map us_username users) ->
  authenticate users' username password = authenticate users username password.
Proof.
  intros H Hin. apply signup_user_cases in H.
  destruct H as [[-> _] | (_ & _ & _ & _ & ->)]; [ reflexivity | ].
  unfold authenticate. rewrite find_user_app.
  destruct (find_user users username) as [x | ] eqn:Ef; [ reflexivity | ].
  apply find_user_none in Ef. contradiction.
Qed.

Lemma login_user_dashboard (users : list user_row) (main_area : page)
    (u p : string) :
  snd (login_user users main_area u p) = DashboardPage ->
  main_area = DashboardPage \/
  snd (authenticate users (strip u) (strip p)) = true.
Proof.
  unfold login_user.
  destruct (is_empty (strip u) || is_empty (strip p)); cbn [snd]; [ auto | ].
  destruct (authenticate users (strip u) (strip p)) as [uid [ | ]]; cbn [snd]; auto.
Qed.

(** X10. Starting from a page other than the dashboard, whatever the clicks
    on the login and signup pages, [main_area] holds the dashboard at the
    end only if one of the clicks was a login whose stripped username and
    password [authenticate] accepted against the [users] table of that
    moment. *)
Theorem dashboard_requires_login (db : database) (evs : list event)
    (users : list user_row) (main_area : page) :
  main_area <> DashboardPage ->
  snd (clicks db (users, main_area) evs) = DashboardPage ->
  exists before username password after,
    evs = before ++ ClickLogin username password :: after /\
    snd (authenticate (fst (clicks db (users, main_area) before))
           (strip username) (strip password)) = true.
Proof.
  revert users main_area.
  induction evs as [ | ev evs IH]; intros users main_area Hpage Hend.
  - cbn in Hend. contradiction.
  - unfold clicks in Hend. cbn [fold_left] in Hend.
    destruct (click db (users, main_area) ev) as [users1 page1] eqn:Hstep.
    destruct page1 eqn:Hp1.
    + destruct (IH users1 LoginPage ltac:(discriminate) Hend)
        as (before & u & p & after & -> & Hauth).
      exists (ev :: before), u, p, after. split; [ reflexivity | ].
      unfold clicks in *. cbn [fold_left]. rewrite Hstep. exact Hauth.
    + destruct (IH users1 SignupPage ltac:(discriminate) Hend)
        as (before & u & p & after & -> & Hauth).
      exists (ev :: before), u, p, after. split; [ reflexivity | ].
      unfold clicks in *. cbn [fold_left]. rewrite Hstep. exact Hauth.
    + destruct ev as [u p | u p | | ]; cbn in Hstep.
      * injection Hstep as <- Hs.
        destruct (login_user_dashboard users main_area u p Hs) as [E | Hauth];
          [ contradiction | ].
        exists [], u, p, evs. split; [ reflexivity | exact Hauth ].
      * destruct (signup_user users db u p) as [[users2 m] | e];
          injection Hstep as _ E; contradiction.
      * discriminate Hstep.
      * discriminate Hstep.
Qed.

(** ** Properties of the prediction form *)

Lemma verdict_has_no_error (p : number) : contains "Error:" (verdict p) = false.
Proof. unfold verdict. destruct (num_gt p _); reflexivity. Qed.

Lemma verdict_color (p : number) :
  (if String.eqb (verdict p) "Legitimate" then "green" else "red") = "green" <->
  verdict p = "Legitimate".
Proof.
  unfold verdict. destruct (num_gt p _); cbn; split; intros H;
    try reflexivity; discriminate H.
Qed.

(** The outcome of [predict_fraud] depends on the store only through the
    profile it fetches and through whether the store accepts the row. *)
Lemma predict_fraud_same_outcome (db1 db2 : database) (user_id : Z)
    (customer_id name diagnosis hospital_type : string) (claim_amount : pyval) :
  fetch_profile db1 user_id customer_id name
    = fetch_profile db2 user_id customer_id name ->
  writable db1 = writable db2 ->
  fst (predict_fraud db1 user_id customer_id name diagnosis hospital_type
         claim_amount)
  = fst (predict_fraud db2 user_id customer_id name diagnosis hospital_type
           claim_amount).
Proof.
  intros Hf Hw. unfold predict_fraud. rewrite Hf.
  destruct (fetch_profile db2 user_id customer_id name) as [[age prev] | ];
    [ | reflexivity ].
  destruct (py_float claim_amount) as [ca | e]; cbn [bind]; [ | reflexivity ].
  destruct (py_int age) as [a | e]; cbn [bind]; [ | reflexivity ].
  destruct (py_int prev) as [pc | e]; cbn [bind]; [ | reflexivity ].
  match goal with
  | |- fst (match insert_prediction _ ?r with _ => _ end) = _ =>
      pose proof (insert_prediction_same db1 db2 r Hw) as Hs;
      destruct (insert_prediction db1 r), (insert_prediction db2 r)
  end; cbn in *; try contradiction; congruence.
Qed.

(** What [predict_fraud] does with an amount that is already a float. *)
Lemma predict_fraud_float (db : database) (user_id : Z)
    (customer_id name diagnosis hospital_type : string) (f : float) :
  match fetch_profile db user_id customer_id name with
  | None =>
      predict_fraud db user_id customer_id name diagnosis hospital_type
        (PyFloat f)
      = (Returned "Error: Customer profile not found" (Float 0%float), db)
  | Some (age, previous_claims) =>
      match py_int age, py_int previous_claims with
      | Ok a, Ok pc =>
          if bindable age && bindable previous_claims && writable db
          then
            predict_fraud db user_id customer_id name diagnosis hospital_type
              (PyFloat f)
            = (Returned (verdict (scored f a pc diagnosis hospital_type))
                 (scored f a pc diagnosis hospital_type),
               appended db
                 (audit_row user_id customer_id name (PyFloat f) age diagnosis
                    hospital_type previous_claims
                    (scored f a pc diagnosis hospital_type)))
          else
            exists e,
              predict_fraud db user_id customer_id name diagnosis hospital_type
                (PyFloat f) = (Raised e, db)
      | _, _ =>
          exists e,
            predict_fraud db user_id customer_id name diagnosis hospital_type
              (PyFloat f) = (Raised e, db)
      end
  end.
Proof.
  destruct (fetch_profile db user_id customer_id name) as [[age prev] | ] eqn:Hf.
  - destruct (py_int age) as [a | e] eqn:Ha.
    + destruct (py_int prev) as [pc | e] eqn:Hp.
      * rewrite (predict_fraud_found db user_id customer_id name diagnosis
                   hospital_type (PyFloat f) age prev f a pc Hf eq_refl Ha Hp).
        unfold insert_prediction. cbn [audit_row pr_claim_amount pr_age
          pr_previous_claims bindable andb].
        destruct (bindable age), (bindable prev); cbn [andb negb];
          try (eexists; reflexivity).
        destruct (writable db) eqn:Hw; [ | eexists; reflexivity ].
        unfold appended. rewrite Hw. reflexivity.
      * exists e. unfold predict_fraud. rewrite Hf. cbn [py_float bind].
        rewrite Ha. cbn [bind]. rewrite Hp. reflexivity.
    + assert (H : exists e', predict_fraud db user_id customer_id name diagnosis
                               hospital_type (PyFloat f) = (Raised e', db)).
      { exists e. unfold predict_fraud. rewrite Hf. cbn [py_float bind].
        rewrite Ha. reflexivity. }
      destruct (py_int prev); exact H.
  - apply predict_fraud_missing. exact Hf.
Qed.


(** Why [predict_fraud] raises when the amount is already a float. *)
Lemma predict_fraud_float_raised (db db' : database) (user_id : Z)
    (customer_id name diagnosis hospital_type : string) (f : float) (e : exn) :
  predict_fraud db user_id customer_id name diagnosis hospital_type (PyFloat f)
    = (Raised e, db') ->
  db' = db /\
  exists age previous_claims,
    fetch_profile db user_id customer_id name = Some (age, previous_claims) /\
    is_ok (py_int age) && is_ok (py_int previous_claims)
    && bindable age && bindable previous_claims && writable db = false.
Proof.
  pose proof (predict_fraud_float db user_id customer_id name diagnosis
                hospital_type f) as H.
  destruct (fetch_profile db user_id customer_id name) as [[age prev] | ].
  - destruct (py_int age) as [a | ea] eqn:Ha.
    + destruct (py_int prev) as [pc | ep] eqn:Hp.
      * destruct (bindable age && bindable prev && writable db) eqn:Hb.
        -- rewrite H. discriminate.
        -- destruct H as [e' H]. rewrite H. intros [= _ <-].
           split; [ reflexivity | ]. exists age, prev.
           split; [ reflexivity | ]. rewrite Ha, Hp. cbn [is_ok andb].
           exact Hb.
      * destruct H as [e' H]. rewrite H. intros [= _ <-].
        split; [ reflexivity | ]. exists age, prev.
        split; [ reflexivity | ]. rewrite Hp. cbn [is_ok].
        rewrite andb_false_r. reflexivity.
    + assert (H' : exists e', predict_fraud db user_id customer_id name
                                diagnosis hospital_type (PyFloat f)
                              = (Raised e', db))
        by (destruct (py_int prev); exact H).
      destruct H' as [e' H']. rewrite H'. intros [= _ <-].
      split; [ reflexivity | ]. exists age, prev.
      split; [ reflexivity | ]. rewrite Ha. reflexivity.
  - rewrite H. discriminate.
Qed.


Lemma matches_own (user_id : Z) (customer_id name : string)
    (rows : list customer_row) :
  filter (matches user_id customer_id name) rows
  = filter (matches user_id customer_id name)
      (filter (fun r => cd_user_id r =? user_id) rows).
Proof.
  induction rows as [ | r rows IH]; cbn [filter]; [ reflexivity | ].
  assert (Hm : matches user_id customer_id name r = true ->
               (cd_user_id r =? user_id) = true).
  { unfold matches. intros H. apply andb_prop in H. destruct H as [H _].
    apply andb_prop in H. destruct H as [H _]. exact H. }
  destruct (cd_user_id r =? user_id) eqn:E.
  - cbn [filter].
    destruct (matches user_id customer_id name r); [ f_equal | ]; exact IH.
  - destruct (matches user_id customer_id name r);
      [ specialize (Hm eq_refl); discriminate Hm | exact IH ].
Qed.

(** X13. What a click on "Predict" shows to a user depends on the
    [customer_data] table only through the rows uploaded under that user's
    id: two stores with the same rows for that user (and the same
    readiness to accept a write) show the same thing, whatever rows other
    users have. *)
Theorem submit_sees_only_own_rows (users : list user_row) (db1 db2 : database)
    (login_username login_password : string)
    (customer_id name diagnosis hospital_type claim_amount : string) (uid : Z) :
  fst (authenticate users login_username login_password) = Some uid ->
  filter (fun r => cd_user_id r =? uid) (customer_data db1)
  = filter (fun r => cd_user_id r =? uid) (customer_data db2) ->
  writable db1 = writable db2 ->
  fst (on_submit users db1 login_username login_password customer_id name
         diagnosis hospital_type claim_amount)
  = fst (on_submit users db2 login_username login_password customer_id name
           diagnosis hospital_type claim_amount).
Proof.
  intros Hauth Hrows Hw. unfold on_submit.
  destruct (authenticate users login_username login_password)
    as [user_id [ | ]]; cbn [negb]; [ | reflexivity ].
  cbn [fst] in Hauth. subst user_id.
  destruct (negb (forallb _ _)); [ reflexivity | ].
  destruct (str_to_float claim_amount) as [f | ]; [ | reflexivity ].
  cbn [predict_fraud_for].
  assert (Hf : fetch_profile db1 uid (strip customer_id) (strip name)
               = fetch_profile db2 uid (strip customer_id) (strip name)).
  { unfold fetch_profile.
    rewrite (matches_own uid _ _ (customer_data db1)),
      (matches_own uid _ _ (customer_data db2)), Hrows. reflexivity. }
  pose proof (predict_fraud_same_outcome db1 db2 uid (strip customer_id)
                (strip name) (strip diagnosis) hospital_type (PyFloat f) Hf Hw)
    as Ho.
  destruct (predict_fraud db1 uid (strip customer_id) (strip name)
              (strip diagnosis) hospital_type (PyFloat f)) as [o1 d1].
  destruct (predict_fraud db2 uid (strip customer_id) (strip name)
              (strip diagnosis) hospital_type (PyFloat f)) as [o2 d2].
  cbn [fst] in Ho. subst o2.
  destruct o1 as [result probability | e]; [ | reflexivity ].
  destruct (contains "Error:" result); reflexivity.
Qed.

(** X14. [login_user] strips the username and password entries before it
    authenticates, [on_submit] does not: when a login succeeded with a
    username entry that, as typed, is not a registered username, every
    click on "Predict" answers "Please login first" and stores nothing. *)
Theorem login_strips_but_submit_does_not (users : list user_row)
    (db : database) (login_username login_password : string)
    (customer_id name diagnosis hospital_type claim_amount : string) :
  snd (login_user users LoginPage login_username login_password)
    = DashboardPage ->
  find_user users login_username = None ->
  snd (authenticate users (strip login_username) (strip login_password)) = true /\
  on_submit users db login_username login_password customer_id name diagnosis
    hospital_type claim_amount
  = ({| object := Markdown "### Error: Please login first"; color := "red" |},
     db).
Proof.
  intros Hlogin Hnone. split.
  - destruct (login_user_dashboard users LoginPage login_username
                login_password Hlogin) as [E | E]; [ discriminate E | exact E ].
  - unfold on_submit, authenticate. rewrite Hnone. reflexivity.
Qed.


(** ** The upload form *)

Lemma uploaded_nil (db : database) : uploaded db [] = db.
Proof. destruct db. unfold uploaded. cbn. rewrite app_nil_r. reflexivity. Qed.

Lemma uploaded_app (db : database) (l1 l2 : list customer_row) :
  uploaded (uploaded db l1) l2 = uploaded db (l1 ++ l2).
Proof. unfold uploaded. cbn. rewrite app_assoc. reflexivity. Qed.

Lemma insert_customer_ok (db db' : database) (r : customer_row) :
  insert_customer db r = Ok db' ->
  db' = uploaded db [r] /\ writable db = true /\
  bindable (cd_age r) && bindable (cd_previous_claims r) = true.
Proof.
  unfold insert_customer.
  destruct (bindable (cd_age r)) eqn:Ha; cbn; [ | discriminate ].
  destruct (bindable (cd_previous_claims r)) eqn:Hp; cbn; [ | discriminate ].
  destruct (bindable (cd_claim_amount r)); cbn; [ | discriminate ].
  destruct (writable db) eqn:Hw; [ | discriminate ].
  intros H. inversion H. unfold uploaded. rewrite Hw. repeat split.
Qed.

Lemma to_customer_row_ok (uid : Z) (row : string -> cell) (r : customer_row) :
  to_customer_row uid row = Ok r ->
  cd_user_id r = uid /\
  cd_customer_id r = strip (cell_str (row "customer_id")) /\
  cd_name r = strip (cell_str (row "name")) /\
  exists a pc, cd_age r = PyInt a /\ cd_previous_claims r = PyInt pc.
Proof.
  unfold to_customer_row.
  destruct (cell_int (row "age")) as [a | e]; cbn; [ | discriminate ].
  destruct (cell_int (row "previous_claims")) as [pc | e]; cbn;
    [ | discriminate ].
  destruct (cell_float (row "claim_amount")) as [f | e]; cbn;
    [ | discriminate ].
  intros H. inversion H. cbn. repeat split. exists a, pc. split; reflexivity.
Qed.

(** What the loop leaves behind, however it ends: the rows of a prefix of
    the sheet, converted, appended in order. *)
Lemma insert_rows_stored (uid : Z) (rows : list (string -> cell))
    (db : database) :
  exists stored,
    snd (insert_rows uid db rows) = uploaded db stored /\
    Forall2 (fun row r => to_customer_row uid row = Ok r)
      (firstn (List.length stored) rows) stored /\
    forallb integer_profile stored = true /\
    (is_ok (fst (insert_rows uid db rows)) = true ->
     List.length stored = List.length rows).
Proof.
  revert db. induction rows as [ | row rows IH]; intros db.
  - exists []. cbn. rewrite uploaded_nil. repeat split. constructor.
  - cbn [insert_rows].
    destruct (to_customer_row uid row) as [r | e] eqn:Hr; cbn [bind].
    + destruct (insert_customer db r) as [db1 | e] eqn:Hi.
      * apply insert_customer_ok in Hi. destruct Hi as (-> & Hw & Hb).
        destruct (IH (uploaded db [r])) as (stored & Hs & Hf & Hint & Hlen).
        exists (r :: stored). rewrite Hs, uploaded_app. cbn [app].
        split; [ reflexivity | ]. split; [ | split ].
        -- cbn [List.length firstn]. constructor; assumption.
        -- cbn [forallb]. rewrite Hint, andb_true_r.
           destruct (to_customer_row_ok _ _ _ Hr) as (_ & _ & _ & a & pc & Ea & Ep).
           unfold integer_profile. rewrite Ea, Ep in *. exact Hb.
        -- intros Hok. cbn [List.length]. f_equal. apply Hlen. exact Hok.
      * exists []. cbn. rewrite uploaded_nil. repeat split.
        -- constructor.
        -- discriminate.
    + exists []. cbn. rewrite uploaded_nil. repeat split.
      * constructor.
      * discriminate.
Qed.

(** A sheet whose first rows are stored and whose next row cannot be
    converted. *)
Lemma insert_rows_stops (uid : Z) (good : list (string -> cell))
    (stored : list customer_row) (bad : string -> cell)
    (rest : list (string -> cell)) (e : exn) (db : database) :
  Forall2 (fun row r => to_customer_row uid row = Ok r) good stored ->
  forallb integer_profile stored = true ->
  writable db = true ->
  to_customer_row uid bad = Raise e ->
  insert_rows uid db (good ++ bad :: rest) = (Raise e, uploaded db stored).
Proof.
  intros Hf. revert db.
  induction Hf as [ | row r good stored Hr Hf IH]; intros db Hint Hw Hbad.
  - cbn. rewrite Hbad. cbn. rewrite uploaded_nil. reflexivity.
  - cbn [app insert_rows]. rewrite Hr. cbn [bind].
    cbn [forallb] in Hint. apply andb_prop in Hint. destruct Hint as [Hi Hint].
    assert (Hins : insert_customer db r = Ok (uploaded db [r])).
    { unfold insert_customer. unfold integer_profile in Hi.
      pose proof (to_customer_row_ok _ _ _ Hr) as (_ & _ & _ & a & pc & Ea & Ep).
      assert (Hc : bindable (cd_claim_amount r) = true).
      { destruct (cd_claim_amount r) eqn:Ec; try reflexivity.
        revert Hr Ec. unfold to_customer_row.
        destruct (cell_int (row "age")); cbn; [ | discriminate ].
        destruct (cell_int (row "previous_claims")); cbn; [ | discriminate ].
        destruct (cell_float (row "claim_amount")) as [f | ]; cbn;
          [ | discriminate ].
        intros H. inversion H. cbn. destruct (is_nan f); discriminate. }
      rewrite Ea, Ep in Hi. rewrite Ea, Ep, Hi, Hc. unfold uploaded.
      rewrite Hw. reflexivity. }
    rewrite Hins, (IH (uploaded db [r]) Hint Hw Hbad), uploaded_app.
    reflexivity.
Qed.

(** The handler changes the store only by appending, to [customer_data],
    integer profiles under the id found for the username entry. *)
Lemma process_excel_stored (users : list user_row) (db : database)
    (file_input : option string) (login_username login_password : string) :
  exists stored,
    snd (process_excel users db file_input login_username login_password)
    = uploaded db stored /\
    forallb integer_profile stored = true /\
    forall r, In r stored ->
      fst (authenticate users login_username login_password)
      = Some (cd_user_id r).
Proof.
  assert (Hnil : forall p : pane,
             exists stored,
               snd (p, db) = uploaded db stored /\
               forallb integer_profile stored = true /\
               forall r, In r stored ->
                 fst (authenticate users login_username login_password)
                 = Some (cd_user_id r)).
  { intros p. exists []. rewrite uploaded_nil. repeat split.
    intros r []. }
  unfold process_excel.
  destruct file_input as [bytes | ]; [ | apply Hnil ].
  destruct (is_empty bytes); [ apply Hnil | ].
  destruct (authenticate users login_username login_password)
    as [[uid | ] authenticated] eqn:Hauth; [ | apply Hnil ].
  destruct (uid =? 0); [ apply Hnil | ].
  destruct (read_excel bytes) as [df | ]; [ | apply Hnil ].
  destruct (negb (str_accessor (columns df))); [ apply Hnil | ].
  destruct (negb (forallb _ required_cols)); [ apply Hnil | ].
  destruct (insert_rows_stored uid (iterrows df) db)
    as (stored & Hs & Hf & Hint & _).
  exists stored. split; [ | split; [ exact Hint | ] ].
  - destruct (insert_rows uid db (iterrows df)) as [[u | e] db']; exact Hs.
  - intros r Hin. cbn [fst]. f_equal.
    assert (Hall : forall l1 l2,
               Forall2 (fun row r => to_customer_row uid row = Ok r) l1 l2 ->
               forall r, In r l2 -> cd_user_id r = uid).
    { intros l1 l2 H. induction H as [ | x y l1 l2 Hxy H IH]; intros r0 [].
      - subst. apply (to_customer_row_ok _ _ _ Hxy).
      - apply IH. assumption. }
    symmetry. apply (Hall _ _ Hf). exact Hin.
Qed.

Lemma fetch_profile_in (db : database) (uid : Z) (customer_id name : string)
    (age previous_claims : pyval) :
  fetch_profile db uid customer_id name = Some (age, previous_claims) ->
  exists r, In r (customer_data db) /\ cd_age r = age /\
            cd_previous_claims r = previous_claims.
Proof.
  unfold fetch_profile.
  destruct (latest _) as [r | ] eqn:Hl; [ | discriminate ].
  intros H. inversion H. apply latest_spec in Hl. destruct Hl as [Hin _].
  apply filter_In in Hin. exists r. split; [ apply Hin | split; reflexivity ].
Qed.

(** What [on_submit] shows when it shows the profile-not-found message. *)
Lemma on_submit_not_found (users : list user_row) (db : database)
    (login_username login_password : string)
    (customer_id name diagnosis hospital_type claim_amount : string) :
  snd (authenticate users login_username login_password) = true ->
  object (fst (on_submit users db login_username login_password customer_id
                 name diagnosis hospital_type claim_amount))
  = Markdown "### Error: Customer profile not found" ->
  exists uid,
    fst (authenticate users login_username login_password) = Some uid /\
    fetch_profile db uid (strip customer_id) (strip name) = None.
Proof.
  unfold on_submit, authenticate.
  destruct (find_user users login_username) as [user | ]; [ | discriminate ].
  cbn [snd fst]. intros ->. cbn [negb].
  destruct (negb (forallb _ _)).
  { cbn [fst object]. intros H. cbn in H. discriminate H. }
  destruct (str_to_float claim_amount) as [f | ];
    [ | cbn; intros H; discriminate H ].
  cbn [predict_fraud_for].
  pose proof (predict_fraud_float db (us_id user) (strip customer_id)
                (strip name) (strip diagnosis) hospital_type f) as Hpf.
  destruct (fetch_profile db (us_id user) (strip customer_id) (strip name))
    as [[age prev] | ] eqn:Hfp.
  - destruct (py_int age) as [a | e].
    + destruct (py_int prev) as [pc | e].
      * destruct (bindable age && bindable prev && writable db).
        -- rewrite Hpf. rewrite verdict_has_no_error. cbn. discriminate.
        -- destruct Hpf as [e Hpf]. rewrite Hpf. cbn. discriminate.
      * destruct Hpf as [e' Hpf]. rewrite Hpf. cbn. discriminate.
    + destruct Hpf as [e' Hpf]. rewrite Hpf. cbn. discriminate.
  - intros _. exists (us_id user). split; [ reflexivity | exact Hfp ].
Qed.

(** X15. [process_excel] never looks at the password entry: whoever
    enters a registered username uploads under that user's id. *)
Theorem upload_ignores_password (users : list user_row) (db : database)
    (file_input : option string) (login_username : string)
    (password password' : string) :
  process_excel users db file_input login_username password
  = process_excel users db file_input login_username password'.
Proof.
  unfold process_excel, authenticate.
  destruct (find_user users login_username); reflexivity.
Qed.


Lemma Forall2_stored (uid : Z) (rows : list (string -> cell))
    (stored : list customer_row) (row : string -> cell) :
  Forall2 (fun row r => to_customer_row uid row = Ok r) rows stored ->
  In row rows ->
  exists r, In r stored /\ to_customer_row uid row = Ok r.
Proof.
  intros H. induction H as [ | x y rows stored Hxy H IH]; intros [].
  - subst x. exists y. split; [ left; reflexivity | exact Hxy ].
  - destruct (IH H0) as (r & Hin & Hr). exists r.
    split; [ right; exact Hin | exact Hr ].
Qed.

(** What the success message of [process_excel] stands for. *)
Lemma process_excel_green (users : list user_row) (db : database)
    (file_input : option string) (login_username login_password : string) :
  color (fst (process_excel users db file_input login_username login_password))
  = "green" ->
  exists uid bytes df stored,
    file_input = Some bytes /\
    fst (authenticate users login_username login_password) = Some uid /\
    read_excel bytes = Some df /\
    forallb (has_column (map rename (columns df))) required_cols = true /\
    Forall2 (fun row r => to_customer_row uid row = Ok r) (iterrows df) stored /\
    snd (process_excel users db file_input login_username login_password)
    = uploaded db stored.
Proof.
  unfold process_excel.
  destruct file_input as [bytes | ]; [ | discriminate ].
  destruct (is_empty bytes); [ discriminate | ].
  destruct (authenticate users login_username login_password)
    as [[uid | ] authenticated]; [ | discriminate ].
  destruct (uid =? 0); [ discriminate | ].
  destruct (read_excel bytes) as [df | ] eqn:Hread; [ | discriminate ].
  destruct (negb (str_accessor (columns df))); [ discriminate | ].
  destruct (forallb _ required_cols) eqn:Hcols; cbn [negb]; [ | discriminate ].
  destruct (insert_rows_stored uid (iterrows df) db)
    as (stored & Hs & Hf & _ & Hlen).
  destruct (insert_rows uid db (iterrows df)) as [[u | e] db'];
    [ | discriminate ].
  intros _. exists uid, bytes, df, stored.
  rewrite (Hlen eq_refl), firstn_all in Hf. cbn [snd] in Hs.
  repeat split; first [ reflexivity | assumption ].
Qed.


Lemma on_submit_customer_data (users : list user_row) (db : database)
    (login_username login_password : string)
    (customer_id name diagnosis hospital_type claim_amount : string) :
  customer_data (snd (on_submit users db login_username login_password
                        customer_id name diagnosis hospital_type claim_amount))
  = customer_data db.
Proof.
  unfold on_submit.
  destruct (authenticate users login_username login_password)
    as [user_id [ | ]]; cbn [negb]; [ | reflexivity ].
  destruct (negb (forallb _ _)); [ reflexivity | ].
  destruct (str_to_float claim_amount) as [f | ]; [ | reflexivity ].
  destruct user_id as [uid | ]; cbn [predict_fraud_for]; [ | reflexivity ].
  pose proof (predict_fraud_frame db uid (strip customer_id) (strip name)
                (strip diagnosis) hospital_type (PyFloat f)) as Hfr.
  cbv zeta in Hfr. destruct Hfr as [Hcd _].
  destruct (predict_fraud db uid (strip customer_id) (strip name)
              (strip diagnosis) hospital_type (PyFloat f)) as [o d].
  cbn [snd] in Hcd.
  destruct o as [result probability | e]; [ | exact Hcd ].
  destruct (contains "Error:" result); exact Hcd.
Qed.

(** X16. The success message of [process_excel] means that the whole sheet
    was stored: the file was read, it has the eight required columns, and
    [customer_data] has gained, in the order of the sheet, one row per row
    of the sheet, converted as the [INSERT] says, under the id of the
    user named in the login form; nothing else has changed. *)
Theorem upload_stores_the_sheet (users : list user_row) (db : database)
    (file_input : option string) (login_username login_password : string) :
  color (fst (process_excel users db file_input login_username login_password))
  = "green" ->
  exists uid bytes df stored,
    file_input = Some bytes /\
    fst (authenticate users login_username login_password) = Some uid /\
    read_excel bytes = Some df /\
    forallb (has_column (map rename (columns df))) required_cols = true /\
    Forall2 (fun row r => to_customer_row uid row = Ok r) (iterrows df) stored /\
    snd (process_excel users db file_input login_username login_password)
    = uploaded db stored.
Proof. apply process_excel_green. Qed.

(** X17. An upload is not atomic: when a row of the sheet cannot be
    converted ([int] or [float] raises on one of its cells), the handler
    shows the exception in red, and the rows before it, already inserted,
    stay in [customer_data]. *)
Theorem upload_is_not_atomic (users : list user_row) (db : database)
    (bytes login_username login_password : string) (uid : Z) (df : frame)
    (good : list (string -> cell)) (stored : list customer_row)
    (bad : string -> cell) (rest : list (string -> cell)) (e : exn) :
  is_empty bytes = false ->
  fst (authenticate users login_username login_password) = Some uid ->
  uid <> 0 ->
  read_excel bytes = Some df ->
  str_accessor (columns df) = true ->
  forallb (has_column (map rename (columns df))) required_cols = true ->
  iterrows df = good ++ bad :: rest ->
  Forall2 (fun row r => to_customer_row uid row = Ok r) good stored ->
  forallb integer_profile stored = true ->
  to_customer_row uid bad = Raise e ->
  writable db = true ->
  process_excel users db (Some bytes) login_username login_password
  = ({| object := ErrorText; color := "red" |}, uploaded db stored).
Proof.
  intros Hb Hauth Hz Hread Hacc Hcols Hrows Hgood Hint Hbad Hw.
  unfold process_excel. rewrite Hb.
  destruct (authenticate users login_username login_password)
    as [user_id authenticated].
  cbn [fst] in Hauth. subst user_id.
  apply Z.eqb_neq in Hz. rewrite Hz, Hread, Hacc, Hcols. cbn [negb].
  rewrite Hrows, (insert_rows_stops uid good stored bad rest e db Hgood Hint Hw Hbad).
  reflexivity.
Qed.

(** X18. After an upload that succeeded, the uploader, logged in, never
    gets "Customer profile not found" for a customer of the sheet: a click
    on "Predict" with the customer id and the name of any of its rows finds
    a profile. *)
Theorem uploaded_customers_are_found (users : list user_row) (db : database)
    (bytes login_username login_password : string) (df : frame)
    (row : string -> cell) (diagnosis hospital_type claim_amount : string) :
  color (fst (process_excel users db (Some bytes) login_username
                login_password)) = "green" ->
  read_excel bytes = Some df ->
  In row (iterrows df) ->
  snd (authenticate users login_username login_password) = true ->
  object (fst (on_submit users
                 (snd (process_excel users db (Some bytes) login_username
                         login_password))
                 login_username login_password
                 (cell_str (row "customer_id")) (cell_str (row "name"))
                 diagnosis hospital_type claim_amount))
  <> Markdown "### Error: Customer profile not found".
Proof.
  intros Hgreen Hread Hin Hauth Hshown.
  destruct (process_excel_green _ _ _ _ _ Hgreen)
    as (uid & bytes' & df' & stored & Hfile & Hid & Hread' & _ & Hf & Hdb).
  injection Hfile as <-. rewrite Hread in Hread'. injection Hread' as <-.
  destruct (on_submit_not_found _ _ _ _ _ _ _ _ _ Hauth Hshown)
    as (uid' & Hid' & Hnone).
  rewrite Hid in Hid'. injection Hid' as <-.
  destruct (Forall2_stored _ _ _ _ Hf Hin) as (r & Hr & Hrow).
  apply fetch_profile_none in Hnone.
  assert (Hm : matches uid (strip (cell_str (row "customer_id")))
                 (strip (cell_str (row "name"))) r = false).
  { apply Hnone. rewrite Hdb. cbn [uploaded customer_data].
    apply in_or_app. right. exact Hr. }
  destruct (to_customer_row_ok _ _ _ Hrow) as (E1 & E2 & E3 & _).
  unfold matches in Hm.
  rewrite E1, E2, E3, Z.eqb_refl, !String.eqb_refl in Hm. discriminate Hm.
Qed.

(** X19. Both handlers keep [customer_data] a table of integer profiles:
    when every row holds an age and a number of previous claims that are
    integers of 64 bits, so does every row after an upload, whether it
    succeeded or not, and after a click on "Predict". *)
Theorem handlers_keep_integer_profiles (users : list user_row) (db : database)
    (file_input : option string) (login_username login_password : string)
    (customer_id name diagnosis hospital_type claim_amount : string) :
  forallb integer_profile (customer_data db) = true ->
  forallb integer_profile
    (customer_data
       (snd (process_excel users db file_input login_username login_password)))
  = true /\
  forallb integer_profile
    (customer_data
       (snd (on_submit users db login_username login_password customer_id name
               diagnosis hospital_type claim_amount)))
  = true.
Proof.
  intros Hdb. split.
  - destruct (process_excel_stored users db file_input login_username
                login_password) as (stored & -> & Hint & _).
    cbn [uploaded customer_data]. rewrite forallb_app, Hdb, Hint. reflexivity.
  - rewrite on_submit_customer_data. exact Hdb.
Qed.

(** X20. On a table of integer profiles, a click on "Predict" shows the
    message of an exception only when the store refuses the write: the
    profiles that uploads have stored never make [int] fail and are
    always bound. *)
Theorem submit_on_integer_profiles (users : list user_row) (db : database)
    (login_username login_password : string)
    (customer_id name diagnosis hospital_type claim_amount : string) :
  forallb integer_profile (customer_data db) = true ->
  writable db = true ->
  object (fst (on_submit users db login_username login_password customer_id
                 name diagnosis hospital_type claim_amount)) <> ErrorText.
Proof.
  intros Hdb Hw. unfold on_submit.
  destruct (authenticate users login_username login_password)
    as [user_id [ | ]]; cbn [negb]; [ | discriminate ].
  destruct (negb (forallb _ _)); [ discriminate | ].
  destruct (str_to_float claim_amount) as [f | ]; [ | discriminate ].
  destruct user_id as [uid | ]; cbn [predict_fraud_for]; [ | discriminate ].
  destruct (predict_fraud db uid (strip customer_id) (strip name)
              (strip diagnosis) hospital_type (PyFloat f)) as [o db'] eqn:Hpf.
  destruct o as [result probability | e].
  - destruct (contains "Error:" result); discriminate.
  - intros _. apply predict_fraud_float_raised in Hpf.
    destruct Hpf as (_ & age & prev & Hf & Hb).
    apply fetch_profile_in in Hf. destruct Hf as (r & Hin & <- & <-).
    rewrite forallb_forall in Hdb. specialize (Hdb r Hin).
    unfold integer_profile in Hdb.
    destruct (cd_age r) as [ | a | | ]; try discriminate Hdb.
    destruct (cd_previous_claims r) as [ | pc | | ]; try discriminate Hdb.
    cbn [py_int is_ok andb] in Hb. rewrite Hdb, Hw in Hb. discriminate Hb.
Qed.



(** ** More on the order of binary64 *)

Lemma SFltb_irrefl (x : spec_float) : SFltb x x = false.
Proof.
  unfold SFltb, SFcompare. split_float x; try reflexivity.
  - rewrite Z.compare_refl. change (Pos.compare_cont Eq m m) with (Pos.compare m m).
    rewrite Pos.compare_refl. reflexivity.
  - rewrite Z.compare_refl. change (Pos.compare_cont Eq m m) with (Pos.compare m m).
    rewrite Pos.compare_refl. reflexivity.
Qed.

Lemma float_leb_not_ltb (x y : float) :
  PrimFloat.leb x y = true -> PrimFloat.ltb y x = false.
Proof.
  intros H. destruct (PrimFloat.ltb y x) eqn:E; [ | reflexivity ].
  pose proof (float_leb_ltb_trans x y x H E) as Hxx.
  rewrite ltb_spec, SFltb_irrefl in Hxx. discriminate Hxx.
Qed.

Lemma float_not_ltb_leb (x y : float) :
  is_nan x = false -> is_nan y = false ->
  PrimFloat.ltb x y = false -> PrimFloat.leb y x = true.
Proof.
  intros Hx Hy H. destruct (float_ltb_or_leb x y Hx Hy) as [E | E];
    [ congruence | exact E ].
Qed.

End Scoring.

(** ** The training script *)

(** X22. [evaluate_model] prints "The model has a good fit." exactly when
    the test accuracy is at least 0.7, or the train accuracy lies between
    0.7 and 0.9, whatever the test accuracy is then: a model with a train
    accuracy of 0.8 is a good fit even when it gets no test sample right. *)
Theorem good_fit_cases {sample target : Type}
    (accuracy_score : list target -> list target -> float)
    (model : list sample -> list target)
    (X_train X_test : list sample) (y_train y_test : list target) :
  is_nan (accuracy_score y_train (model X_train)) = false ->
  is_nan (accuracy_score y_test (model X_test)) = false ->
  In (Line "The model has a good fit.")
    (evaluate_model accuracy_score model X_train X_test y_train y_test)
  <->
  (0.7 <=? accuracy_score y_test (model X_test))%float = true \/
  ((0.7 <=? accuracy_score y_train (model X_train))%float = true /\
   (accuracy_score y_train (model X_train) <=? 0.9)%float = true).
Proof.
  intros Htrain Htest. unfold evaluate_model.
  set (train := accuracy_score y_train (model X_train)) in *.
  set (test := accuracy_score y_test (model X_test)) in *.
  split.
  - intros Hin.
    destruct (test <? 0.7)%float eqn:Et.
    + right. rewrite !andb_true_r in Hin.
      destruct (0.9 <? train)%float eqn:E9.
      { destruct Hin as [H | [H | [H | []]]]; discriminate H. }
      destruct (train <? 0.7)%float eqn:E7.
      { destruct Hin as [H | [H | [H | []]]]; discriminate H. }
      split; apply float_not_ltb_leb; try assumption; reflexivity.
    + left. apply float_not_ltb_leb; try assumption. reflexivity.
  - intros [Ht | [H7 H9]].
    + rewrite (float_leb_not_ltb _ _ Ht), !andb_false_r.
      right. right. left. reflexivity.
    + rewrite (float_leb_not_ltb _ _ H7), (float_leb_not_ltb _ _ H9).
      cbn [andb]. right. right. left. reflexivity.
Qed.

(** ** The statements on the sample store *)

(** C1: on the sample store the probability returned for the example of
    the specification is not 0.65; it is strictly below it. *)
Lemma example_probability_is_not_065 :
  fetch_profile demo_db 1 "C001" "Alice" = Some (PyInt 45, PyInt 6) /\
  model_const 0.05 (preprocess_input demo_encoders 350000 45 "Cancer" "Private" 6)
    = Some 0.05%float /\
  fst (predict_fraud demo_str_to_float demo_str_to_int demo_encoders
         (model_const 0.05) demo_db 1 "C001" "Alice" "Cancer" "Private"
         (PyFloat 350000))
  <> Returned "Fraud" (Float 0.65) /\
  (0.10 + 0.15 + 0.20 + 0.10 <? 0.60)%float = true.
Proof.
  split; [ reflexivity | ]. split; [ reflexivity | ].
  split; [ | vm_compute; reflexivity ].
  intros H.
  apply (f_equal (fun o => match o with
                           | Returned _ (Float f) => Prim2SF f
                           | _ => S754_nan
                           end)) in H.
  vm_compute in H. discriminate H.
Qed.

Lemma all_rules_example_witness :
  predict_fraud demo_str_to_float demo_str_to_int demo_encoders
    (model_const 0.05) demo_db 1 "C001" "Alice" "Cancer" "Private"
    (PyFloat 350000)
  = (Returned "Fraud" (Float 0.6),
     appended demo_db
       {| pr_user_id := 1;
          pr_customer_id := "C001";
          pr_name := "Alice";
          pr_claim_amount := PyFloat 350000;
          pr_age := PyInt 45;
          pr_diagnosis := "Cancer";
          pr_hospital_type := "Private";
          pr_previous_claims := PyInt 6;
          pr_prediction := "Fraud";
          pr_probability := Float 0.6 |}).
Proof.
  apply (all_rules_example demo_str_to_float demo_str_to_int demo_encoders
           (model_const 0.05) demo_db 1 "C001" "Alice" (PyInt 45) 45);
    reflexivity.
Defined.

Lemma probability_in_unit_interval_witness :
  fst (predict_fraud demo_str_to_float demo_str_to_int demo_encoders
         (model_const 0.9) demo_db 1 "C001" "Alice" "Cancer" "Private"
         (PyFloat 350000))
  = Returned "Fraud" (Int 1) /\
  num_le (Int 0) (Int 1) = true /\ num_le (Int 1) (Int 1) = true.
Proof.
  split; [ vm_compute; reflexivity | ].
  apply (probability_in_unit_interval demo_str_to_float demo_str_to_int
           demo_encoders (model_const 0.9) demo_db
           (snd (predict_fraud demo_str_to_float demo_str_to_int demo_encoders
                   (model_const 0.9) demo_db 1 "C001" "Alice" "Cancer"
                   "Private" (PyFloat 350000)))
           1 "C001" "Alice" "Cancer" "Private" (PyFloat 350000) "Fraud" (Int 1)).
  vm_compute. reflexivity.
Defined.

(** A call that lands exactly on the threshold: no model output, more than
    five previous claims (+0.15) and a suspicious diagnosis (+0.20). *)
Lemma verdict_threshold_witness :
  fst (predict_fraud demo_str_to_float demo_str_to_int demo_encoders
         model_failing demo_db 1 "C001" "Alice" "Heart Disease" "Government"
         (PyFloat 5000))
  = Returned "Legitimate" (Float 0.35) /\
  ("Legitimate" = "Fraud" <-> num_gt (Float 0.35) (Float 0.35) = true).
Proof.
  split; [ vm_compute; reflexivity | ].
  apply (verdict_threshold demo_str_to_float demo_str_to_int demo_encoders
           model_failing demo_db
           (snd (predict_fraud demo_str_to_float demo_str_to_int demo_encoders
                   model_failing demo_db 1 "C001" "Alice" "Heart Disease"
                   "Government" (PyFloat 5000)))
           1 "C001" "Alice" "Heart Disease" "Government" (PyFloat 5000)
           "Legitimate" (Float 0.35)).
  - vm_compute. discriminate.
  - vm_compute. reflexivity.
Defined.

Lemma missing_profile_not_scored_witness :
  predict_fraud demo_str_to_float demo_str_to_int demo_encoders
    (model_const 0.9) demo_db 2 "C001" "Alice" "Cancer" "Private"
    (PyFloat 350000)
  = (Returned "Error: Customer profile not found" (Float 0), demo_db).
Proof.
  apply (missing_profile_not_scored demo_str_to_float demo_str_to_int
           demo_encoders (model_const 0.9) demo_db 2 "C001" "Alice" "Cancer"
           "Private" (PyFloat 350000)).
  intros r Hr. cbn in Hr.
  destruct Hr as [<- | [<- | [<- | []]]]; reflexivity.
Defined.

Lemma predict_fraud_deterministic_witness :
  fst (predict_fraud demo_str_to_float demo_str_to_int demo_encoders
         (model_const 0.05) demo_db 1 "C001" "Alice" "Flu" "Private"
         (PyFloat 350000))
  = fst (predict_fraud demo_str_to_float demo_str_to_int demo_encoders
           (model_const 0.05)
           {| customer_data := [alice_2024];
              predictions := [];
              writable := true |}
           1 "C001" "Alice" "Flu" "Private" (PyFloat 350000)).
Proof.
  apply (predict_fraud_deterministic demo_str_to_float demo_str_to_int
           demo_encoders (model_const 0.05) demo_db
           {| customer_data := [alice_2024];
              predictions := [];
              writable := true |}
           1 "C001" "Alice" "Flu" "Private" (PyFloat 350000));
    reflexivity.
Defined.

Lemma unseen_category_falls_back_witness :
  seen demo_encoders "Diagnosis" "Ebola" = false /\
  Diagnosis (preprocess_input demo_encoders 350000 45 "Ebola" "Private" 6) = 0 /\
  exists v p,
    is_verdict v /\
    predict_fraud demo_str_to_float demo_str_to_int demo_encoders
      (model_const 0.05) demo_db 1 "C001" "Alice" "Ebola" "Private"
      (PyFloat 350000)
    = (Returned v p,
       appended demo_db
         (audit_row 1 "C001" "Alice" (PyFloat 350000) (PyInt 45) "Ebola"
            "Private" (PyInt 6) p)).
Proof.
  destruct (unseen_category_falls_back demo_str_to_float demo_str_to_int
              demo_encoders (model_const 0.05) "Ebola" "Private"
              (or_introl eq_refl)) as [Hcode Hscore].
  split; [ reflexivity | ]. split.
  - apply (Hcode 350000%float 45 6). reflexivity.
  - apply (Hscore demo_db 1 "C001" "Alice" (PyFloat 350000) (PyInt 45) (PyInt 6)
             350000%float 45 6); reflexivity.
Defined.

Lemma model_failure_defaults_to_zero_witness :
  base_probability model_failing
    (preprocess_input demo_encoders 350000 45 "Flu" "Private" 6) = 0%float.
Proof.
  apply (model_failure_defaults_to_zero demo_str_to_float demo_str_to_int
           demo_encoders model_failing demo_db 1 "C001" "Alice" "Flu" "Private"
           (PyFloat 350000) (PyInt 45) (PyInt 6) 350000 45 6);
    reflexivity.
Defined.




Lemma rules_never_lower_witness :
  fst (predict_fraud demo_str_to_float demo_str_to_int demo_encoders
         (model_const 0.05) demo_db 1 "C001" "Alice" "Cancer" "Private"
         (PyFloat 350000))
  = Returned "Fraud" (Float 0.6) /\
  num_le (py_min (Int 1) (Float 0.05)) (Float 0.6) = true.
Proof.
  split; [ vm_compute; reflexivity | ].
  apply (rules_never_lower demo_str_to_float demo_str_to_int demo_encoders
           (model_const 0.05) demo_db
           (snd (predict_fraud demo_str_to_float demo_str_to_int demo_encoders
                   (model_const 0.05) demo_db 1 "C001" "Alice" "Cancer"
                   "Private" (PyFloat 350000)))
           1 "C001" "Alice" "Cancer" "Private" (PyFloat 350000) (PyInt 45)
           (PyInt 6) 350000 45 6 "Fraud" (Float 0.6));
    vm_compute; reflexivity.
Defined.

(** ** Further properties, on the sample store *)

Lemma profile_is_most_recent_witness :
  exists r,
    In r (customer_data demo_db) /\
    matches 1 "C001" "Alice" r = true /\
    cd_age r = PyInt 45 /\
    cd_previous_claims r = PyInt 6 /\
    forall r',
      In r' (customer_data demo_db) ->
      matches 1 "C001" "Alice" r' = true ->
      String.ltb (cd_date r) (cd_date r') = false.
Proof.
  apply (profile_is_most_recent demo_db 1 "C001" "Alice" (PyInt 45) (PyInt 6)).
  reflexivity.
Defined.

Lemma seen_labels_round_trip_witness :
  nth_error ["Cancer"; "Diabetes"; "Flu"]
    (Z.to_nat (Diagnosis (preprocess_input demo_encoders 5000 45 "Flu"
                            "Private" 6)))
  = Some "Flu".
Proof.
  destruct (seen_labels_round_trip demo_encoders 5000 45 6 "Flu" "Private"
              {| classes_ := ["Cancer"; "Diabetes"; "Flu"] |}
              {| classes_ := ["Government"; "Private"] |}
              eq_refl eq_refl) as [Hd _].
  apply Hd. reflexivity.
Defined.

Lemma unseen_diagnosis_scored_as_first_class_witness :
  preprocess_input demo_encoders 5000 45 "Ebola" "Private" 6
  = preprocess_input demo_encoders 5000 45 "Cancer" "Private" 6.
Proof.
  apply (unseen_diagnosis_scored_as_first_class demo_encoders (model_const 0.05)
           5000 45 6 "Ebola" "Private" "Cancer" ["Diabetes"; "Flu"]
           {| classes_ := ["Cancer"; "Diabetes"; "Flu"] |});
    reflexivity.
Defined.

Lemma verdict_without_model_witness :
  verdict (scored demo_encoders model_failing 350000 45 6 "Flu" "Private")
    = "Fraud" <->
  suspicious_diagnosis "Flu"
  && ((high_amount 350000 && frequent_claims 6)
      || (high_amount 350000 && private_hospital "Private")
      || (frequent_claims 6 && private_hospital "Private")) = true.
Proof.
  apply (verdict_without_model demo_encoders model_failing 350000 45 6 "Flu"
           "Private").
  reflexivity.
Defined.

Lemma signup_stores_only_valid_accounts_witness :
  (demo_users_kim = demo_users /\ color signup_ok = "red") \/
  (color signup_ok = "green" /\
   demo_strip " kim " <> "" /\
   8 <= py_len (demo_strip "hunter2hunter2 ") /\
   ~ In (demo_strip " kim ") (map us_username demo_users) /\
   demo_users_kim
   = demo_users ++ [ {| us_id := next_user_id demo_users;
                        us_username := demo_strip " kim ";
                        us_password :=
                          hash_password demo_hash (demo_strip "hunter2hunter2 ") |} ]).
Proof.
  apply (signup_stores_only_valid_accounts demo_strip demo_hash demo_users
           demo_users_kim demo_db " kim " "hunter2hunter2 " signup_ok).
  reflexivity.
Defined.

Lemma signup_keeps_accounts_distinct_witness :
  NoDup (map us_username demo_users_kim) /\
  NoDup (map us_id demo_users_kim) /\
  (forall u, In u demo_users_kim -> 0 < us_id u).
Proof.
  apply (signup_keeps_accounts_distinct demo_strip demo_hash demo_users
           demo_users_kim demo_db " kim " "hunter2hunter2 " signup_ok).
  - reflexivity.
  - cbn. repeat constructor; cbn; intuition discriminate.
  - cbn. repeat constructor; cbn; intuition discriminate.
  - cbn. intros u [<- | [<- | []]]; reflexivity.
Defined.

Lemma signup_then_login_witness :
  login_user demo_strip demo_hash demo_users_kim LoginPage " kim "
    "hunter2hunter2 "
  = ({| object := Markdown "### Login successful! ✅"; color := "green" |},
     DashboardPage).
Proof.
  apply (signup_then_login demo_strip demo_hash demo_users demo_users_kim
           demo_db LoginPage " kim " "hunter2hunter2 " signup_ok);
    reflexivity.
Defined.

Lemma signup_cannot_take_over_witness :
  authenticate demo_hash demo_users_kim "ana" "correct horse"
  = authenticate demo_hash demo_users "ana" "correct horse".
Proof.
  apply (signup_cannot_take_over demo_strip demo_hash demo_users demo_users_kim
           demo_db " kim " "hunter2hunter2 " signup_ok "ana" "correct horse").
  - reflexivity.
  - cbn. auto.
Defined.

Lemma dashboard_requires_login_witness :
  exists before username password after,
    [ClickGoToSignup; ClickSignup "kim" "hunter2hunter2"; ClickGoToLogin;
     ClickLogin "kim" "hunter2hunter2"]
    = before ++ ClickLogin username password :: after /\
    snd (authenticate demo_hash
           (fst (clicks demo_strip demo_hash demo_db (demo_users, LoginPage)
                   before))
           (demo_strip username) (demo_strip password)) = true.
Proof.
  apply (dashboard_requires_login demo_strip demo_hash demo_db
           [ClickGoToSignup; ClickSignup "kim" "hunter2hunter2"; ClickGoToLogin;
            ClickLogin "kim" "hunter2hunter2"]
           demo_users LoginPage).
  - discriminate.
  - reflexivity.
Defined.


Lemma submit_sees_only_own_rows_witness :
  fst (on_submit demo_str_to_float demo_str_to_int demo_encoders
         (model_const 0.05) demo_strip demo_hash demo_users demo_db
         "ana" "correct horse" " C001" "Alice " "Cancer" "Private" "350000")
  = fst (on_submit demo_str_to_float demo_str_to_int demo_encoders
           (model_const 0.05) demo_strip demo_hash demo_users demo_db_two_users
           "ana" "correct horse" " C001" "Alice " "Cancer" "Private" "350000").
Proof.
  apply (submit_sees_only_own_rows demo_str_to_float demo_str_to_int
           demo_encoders (model_const 0.05) demo_strip demo_hash demo_users
           demo_db demo_db_two_users "ana" "correct horse" " C001" "Alice "
           "Cancer" "Private" "350000" 1);
    reflexivity.
Defined.

Lemma login_strips_but_submit_does_not_witness :
  snd (authenticate demo_hash demo_users (demo_strip " ana")
         (demo_strip "correct horse")) = true /\
  on_submit demo_str_to_float demo_str_to_int demo_encoders (model_const 0.05)
    demo_strip demo_hash demo_users demo_db " ana" "correct horse" "C001"
    "Alice" "Cancer" "Private" "350000"
  = ({| object := Markdown "### Error: Please login first"; color := "red" |},
     demo_db).
Proof.
  apply (login_strips_but_submit_does_not demo_str_to_float demo_str_to_int
           demo_encoders (model_const 0.05) demo_strip demo_hash demo_users
           demo_db " ana" "correct horse" "C001" "Alice" "Cancer" "Private"
           "350000");
    reflexivity.
Defined.


(** The upload of the sample sheet goes through with a wrong password. *)
Lemma upload_stores_the_sheet_witness :
  exists uid bytes df stored,
    Some "sheet" = Some bytes /\
    fst (authenticate demo_hash demo_users "ana" "not the password") = Some uid /\
    demo_read_excel bytes = Some df /\
    forallb (has_column (map (rename demo_strip) (columns df))) required_cols
    = true /\
    Forall2 (fun row r => to_customer_row demo_strip uid row = Ok r)
      (iterrows df) stored /\
    snd (process_excel demo_strip demo_hash demo_read_excel demo_str_accessor
           demo_users demo_db (Some "sheet") "ana" "not the password")
    = uploaded demo_db stored.
Proof.
  apply (upload_stores_the_sheet demo_strip demo_hash demo_read_excel
           demo_str_accessor demo_users demo_db (Some "sheet") "ana"
           "not the password").
  reflexivity.
Defined.

Lemma upload_is_not_atomic_witness :
  process_excel demo_strip demo_hash demo_read_excel demo_str_accessor
    demo_users demo_db (Some "sheet with a gap") "ana" "correct horse"
  = ({| object := ErrorText; color := "red" |},
     uploaded demo_db [carol_of_ana]).
Proof.
  apply (upload_is_not_atomic demo_strip demo_hash demo_read_excel
           demo_str_accessor demo_users demo_db "sheet with a gap" "ana"
           "correct horse" 1 demo_sheet_gap [carol] [carol_of_ana] erin [dave]
           ValueError);
    try reflexivity.
  - lia.
  - constructor; [ reflexivity | constructor ].
Defined.

Lemma uploaded_customers_are_found_witness :
  object
    (fst (on_submit demo_str_to_float demo_str_to_int demo_encoders
            (model_const 0.05) demo_strip demo_hash demo_users
            (snd (process_excel demo_strip demo_hash demo_read_excel
                    demo_str_accessor demo_users demo_db (Some "sheet") "ana"
                    "correct horse"))
            "ana" "correct horse" (cell_str (carol "customer_id"))
            (cell_str (carol "name")) "Heart Disease" "Private" "90000"))
  <> Markdown "### Error: Customer profile not found".
Proof.
  apply (uploaded_customers_are_found demo_str_to_float demo_str_to_int
           demo_encoders (model_const 0.05) demo_strip demo_hash
           demo_read_excel demo_str_accessor demo_users demo_db "sheet" "ana"
           "correct horse" demo_sheet carol "Heart Disease" "Private" "90000");
    try reflexivity.
  left. reflexivity.
Defined.

Lemma handlers_keep_integer_profiles_witness :
  forallb integer_profile
    (customer_data
       (snd (process_excel demo_strip demo_hash demo_read_excel
               demo_str_accessor demo_users demo_db_integers
               (Some "sheet with a gap") "ana" "correct horse")))
  = true /\
  forallb integer_profile
    (customer_data
       (snd (on_submit demo_str_to_float demo_str_to_int demo_encoders
               (model_const 0.05) demo_strip demo_hash demo_users
               demo_db_integers "ana" "correct horse" "C001" "Alice" "Cancer"
               "Private" "350000")))
  = true.
Proof.
  apply (handlers_keep_integer_profiles demo_str_to_float demo_str_to_int
           demo_encoders (model_const 0.05) demo_strip demo_hash
           demo_read_excel demo_str_accessor demo_users demo_db_integers
           (Some "sheet with a gap") "ana" "correct horse" "C001" "Alice"
           "Cancer" "Private" "350000").
  reflexivity.
Defined.

Lemma submit_on_integer_profiles_witness :
  object
    (fst (on_submit demo_str_to_float demo_str_to_int demo_encoders
            (model_const 0.05) demo_strip demo_hash demo_users
            demo_db_integers "ana" "correct horse" "C001" "Alice" "Cancer"
            "Private" "350000"))
  <> ErrorText.
Proof.
  apply (submit_on_integer_profiles demo_str_to_float demo_str_to_int
           demo_encoders (model_const 0.05) demo_strip demo_hash demo_users
           demo_db_integers "ana" "correct horse" "C001" "Alice" "Cancer"
           "Private" "350000");
    reflexivity.
Defined.



(** A train accuracy of 0.8 with a test accuracy of 0 is a good fit. *)
Lemma good_fit_cases_witness :
  demo_accuracy_score demo_y_train (demo_threshold_model demo_X_train)
  = 0.8%float /\
  demo_accuracy_score demo_y_test (demo_threshold_model demo_X_test)
  = 0%float /\
  (In (Line "The model has a good fit.")
     (evaluate_model demo_accuracy_score demo_threshold_model demo_X_train
        demo_X_test demo_y_train demo_y_test)
   <->
   (0.7 <=? demo_accuracy_score demo_y_test
              (demo_threshold_model demo_X_test))%float = true \/
   ((0.7 <=? demo_accuracy_score demo_y_train
               (demo_threshold_model demo_X_train))%float = true /\
    (demo_accuracy_score demo_y_train (demo_threshold_model demo_X_train)
     <=? 0.9)%float = true)).
Proof.
  split; [ vm_compute; reflexivity | ].
  split; [ vm_compute; reflexivity | ].
  apply (good_fit_cases demo_accuracy_score demo_threshold_model demo_X_train
           demo_X_test demo_y_train demo_y_test);
    vm_compute; reflexivity.
Defined.
